(** * The fasthttp router used by the Prometheus middleware

    A shallow embedding of [router.go] (package [router]): grouped
    registration ([Group], [Handle]), dispatch ([Handler]), introspection
    ([Lookup], [List]) and the allowed-methods computation ([allowed]).

    The radix tree ([node], [addRoute], [getValue],
    [findCaseInsensitivePath]) and the path utilities ([getOptionalPaths],
    [cleanPath]) live in other files of the package; the router is modelled
    over them as the classes [Trie] and [PathUtil], and small instances
    ([SpecTrie], [SpecPath]) are used to run the router on concrete
    requests. *)

From Stdlib Require Import String Ascii List ZArith Lia Bool DecimalString.
From stdpp Require Import base option list gmap strings fin_maps.

Local Open Scope string_scope.
Local Open Scope Z_scope.

(** ** Panics and the state-and-panic monad *)

(** The value carried by a Go panic. [panic("...")] carries a string; an
    out-of-range index and a nil dereference are run-time errors. The
    value is never nil, so [recover()] tells a panic from a normal return
    (since Go 1.21 [panic(nil)] carries a run-time error too). *)
Inductive PanicValue : Type :=
  | PanicString (msg : string)
  | RuntimeIndexOutOfRange (index len : nat)
  | RuntimeNilDereference.

(** The result of running a piece of Go code: it returns, or it panics. *)
Inductive Res (A : Type) : Type :=
  | Val (a : A)
  | Panicked (v : PanicValue).
Arguments Val {A} a.
Arguments Panicked {A} v.

(** Code that mutates a state [S] and may panic. The state reached at a
    panic is kept: Go does not roll back mutations. *)
Definition M (S A : Type) : Type := S -> Res A * S.

#[export] Instance M_ret {S} : MRet (M S) := fun A a s => (Val a, s).
#[export] Instance M_bind {S} : MBind (M S) := fun A B f m s =>
  match m s with
  | (Val a, s') => f a s'
  | (Panicked v, s') => (Panicked v, s')
  end.

Definition panic {S A} (v : PanicValue) : M S A := fun s => (Panicked v, s).
Definition get {S} : M S S := fun s => (Val s, s).
Definition modify {S} (f : S -> S) : M S unit := fun s => (Val tt, f s).

(** [defer] of a function that calls [recover()]: when the body panics
    with [v], the panic stops and [k v] runs in its place. *)
Definition recovering {S} (body : M S unit) (k : PanicValue -> M S unit) : M S unit :=
  fun s =>
    match body s with
    | (Val tt, s') => (Val tt, s')
    | (Panicked v, s') => k v s'
    end.

(** ** Strings as Go uses them here *)

Definition len (s : string) : nat := String.length s.

(** [s[:len(s)-1]] *)
Definition drop_last (s : string) : string := String.substring 0 (len s - 1) s.

(** [s[len(s)-1] == c], guarded by [len(s) > 0] *)
Definition last_is (c : ascii) (s : string) : bool :=
  match String.get (len s - 1) s with
  | Some c' => Ascii.eqb c' c
  | None => false
  end.

Definition str_eqb (a b : string) : bool := bool_decide (a = b).

(** ** The request context *)

Record Response : Type := mkResponse {
  StatusCode : Z;
  Header : gmap string string;
  ContentType : string;
  Body : string
}.

(** [QueryString] is [ctx.URI().QueryString()], the raw query of the
    request; [QueryArgsString] is [ctx.QueryArgs().QueryString()], the
    parsed arguments written out again. [FullURI] is the URI of the
    request updated with a redirect target and written in full (fasthttp's
    [u.Update(uri); u.FullURI()] on a copy of [ctx.URI()]): scheme and
    host of the request in front of the resolved target. *)
Record RequestCtx : Type := mkCtx {
  Method : string;
  Path : string;
  QueryString : string;
  QueryArgsString : string;
  FullURI : string -> string;
  UserValues : list (string * string);
  Resp : Response
}.

Definition set_Resp (f : Response -> Response) (c : RequestCtx) : RequestCtx :=
  mkCtx (Method c) (Path c) (QueryString c) (QueryArgsString c) (FullURI c)
        (UserValues c) (f (Resp c)).

(** [ctx.SetUserValue(k, v)] for each bound parameter, in order. *)
Definition SetUserValues (ps : list (string * string)) (c : RequestCtx) : RequestCtx :=
  mkCtx (Method c) (Path c) (QueryString c) (QueryArgsString c) (FullURI c)
        (UserValues c ++ ps)%list (Resp c).

Definition SetStatusCode (code : Z) : Response -> Response :=
  fun r => mkResponse code (Header r) (ContentType r) (Body r).
Definition SetContentType (ct : string) : Response -> Response :=
  fun r => mkResponse (StatusCode r) (Header r) ct (Body r).
Definition SetBodyString (b : string) : Response -> Response :=
  fun r => mkResponse (StatusCode r) (Header r) (ContentType r) b.
Definition HeaderSet (k v : string) : Response -> Response :=
  fun r => mkResponse (StatusCode r) (<[k := v]> (Header r)) (ContentType r) (Body r).

Definition StatusNotFound : Z := 404.
Definition StatusMethodNotAllowed : Z := 405.

(** [fasthttp.StatusMessage] at the two codes the router uses. *)
Definition StatusMessage (code : Z) : string :=
  if code =? 404 then "Not Found"
  else if code =? 405 then "Method Not Allowed"
  else "Unknown Status Code".

Definition defaultContentType : string := "text/plain; charset=utf-8".
Definition questionMark : string := "?".

Definition emptyResponse : Response := mkResponse 200 ∅ EmptyString EmptyString.

(** [ctx.Error(msg, code)]: the response is reset, then status, content
    type and body are set. *)
Definition ctx_Error (msg : string) (code : Z) : Response -> Response :=
  fun _ => mkResponse code ∅ defaultContentType msg.

(** [ctx.Redirect(uri, code)] and [ctx.RedirectBytes(uri, code)]: the
    URI of the request is updated with [uri] and written in full into the
    [Location] header, and the status code is set (fasthttp keeps the
    codes 301 and 307 as they are). *)
Definition ctx_Redirect (uri : string) (code : Z) (c : RequestCtx) : RequestCtx :=
  set_Resp (fun r => SetStatusCode code (HeaderSet "Location" (FullURI c uri) r)) c.

(** A request handler mutates the context it is given and may panic. *)
Definition RequestHandler : Type := M RequestCtx unit.

(** ** What dispatch did: a ghost trace

    Handlers are opaque, so the response alone does not tell which
    branch of dispatch ran. The model records every action the router
    itself takes. *)
Inductive RedirectKind : Type := TrailingSlash | FixedPath.

Inductive Event : Type :=
  | EvHandle                                              (* f(ctx) *)
  | EvRedirect (k : RedirectKind) (uri : string) (code : Z)
  | EvOptionsReply (allow : string)
  | EvMethodNotAllowed (allow : string) (custom : bool)
  | EvNotFound (custom : bool)
  | EvPanicHandler (v : PanicValue).

Record ServeState : Type := mkServe {
  ctx : RequestCtx;
  trace : list Event
}.

Definition emit (e : Event) : M ServeState unit :=
  modify (fun s => mkServe (ctx s) (trace s ++ [e])%list).

Definition on_ctx (f : RequestCtx -> RequestCtx) : M ServeState unit :=
  modify (fun s => mkServe (f (ctx s)) (trace s)).

Definition on_resp (f : Response -> Response) : M ServeState unit :=
  on_ctx (set_Resp f).

(** Calling a handler on the context of the request being served. *)
Definition call (h : RequestHandler) : M ServeState unit :=
  fun s => let '(r, c) := h (ctx s) in (r, mkServe c (trace s)).

Definition is_redirect (e : Event) : bool :=
  match e with EvRedirect _ _ _ => true | _ => false end.

Definition is_panic_handler (e : Event) : bool :=
  match e with EvPanicHandler _ => true | _ => false end.

(** The fallbacks that are not redirects: OPTIONS auto-reply, 405, 404. *)
Definition is_fallback (e : Event) : bool :=
  match e with
  | EvOptionsReply _ | EvMethodNotAllowed _ _ | EvNotFound _ => true
  | _ => false
  end.

(** ** The trie and the path utilities, as the router sees them *)

(** The radix tree of package [router], through the operations
    [router.go] calls. *)
Class Trie : Type := {
  node : Type;
  (** [new(node)] *)
  new_node : node;
  (** [n.addRoute(path, handle)] mutates the tree in place and panics on a
      malformed or conflicting pattern: the tree it leaves, and the panic
      if there was one. *)
  addRoute : node -> string -> RequestHandler -> node * option PanicValue;
  (** [n.getValue(path, ctx)]: the handler, the trailing-slash flag, and
      the parameters it binds on [ctx] when [ctx] is not nil. *)
  getValue : node -> string -> option RequestHandler * bool * list (string * string);
  (** [n.findCaseInsensitivePath(path, fixTrailingSlash)] *)
  findCaseInsensitivePath : node -> string -> bool -> option string
}.

Class PathUtil : Type := {
  getOptionalPaths : string -> list string;
  (** [cleanPathWithBuffer] followed by reading the buffer. *)
  cleanPath : string -> string
}.

(** ** The router *)

Abbreviation loc := nat (only parsing).

Section Router.

Context `{Trie} `{PathUtil}.

(** Routers live on the heap and point to their parent; [loc] is an
    address in it. *)

Record Router : Type := mkRouter {
  parent : option loc;
  beginPath : string;
  trees : gmap string node;
  registeredPaths : gmap string (list string);
  RedirectTrailingSlash : bool;
  RedirectFixedPath : bool;
  HandleMethodNotAllowed : bool;
  HandleOPTIONS : bool;
  NotFound : option RequestHandler;
  MethodNotAllowed : option RequestHandler;
  PanicHandler : option (PanicValue -> RequestHandler)
}.

Definition set_registeredPaths (rp : gmap string (list string)) (r : Router) : Router :=
  mkRouter (parent r) (beginPath r) (trees r) rp
           (RedirectTrailingSlash r) (RedirectFixedPath r)
           (HandleMethodNotAllowed r) (HandleOPTIONS r)
           (NotFound r) (MethodNotAllowed r) (PanicHandler r).

Definition set_trees (t : gmap string node) (r : Router) : Router :=
  mkRouter (parent r) (beginPath r) t (registeredPaths r)
           (RedirectTrailingSlash r) (RedirectFixedPath r)
           (HandleMethodNotAllowed r) (HandleOPTIONS r)
           (NotFound r) (MethodNotAllowed r) (PanicHandler r).

(** Assignments to the exported fields [PanicHandler] and [NotFound]. *)
Definition set_PanicHandler (ph : option (PanicValue -> RequestHandler)) (r : Router) : Router :=
  mkRouter (parent r) (beginPath r) (trees r) (registeredPaths r)
           (RedirectTrailingSlash r) (RedirectFixedPath r)
           (HandleMethodNotAllowed r) (HandleOPTIONS r)
           (NotFound r) (MethodNotAllowed r) ph.

Definition set_NotFound (nf : option RequestHandler) (r : Router) : Router :=
  mkRouter (parent r) (beginPath r) (trees r) (registeredPaths r)
           (RedirectTrailingSlash r) (RedirectFixedPath r)
           (HandleMethodNotAllowed r) (HandleOPTIONS r)
           nf (MethodNotAllowed r) (PanicHandler r).

(** The heap: the routers allocated so far, by address. *)
Abbreviation heap := (list Router) (only parsing).

(** The value [New()] builds. *)
Definition new_router : Router :=
  mkRouter None "/" ∅ ∅ true true true true None None None.

(** [New()]: allocates the router and returns its address. *)
Definition New (h : heap) : loc * heap :=
  (length h, (h ++ [new_router])%list).

(** [r.Group(path)] *)
Definition Group (r : loc) (path : string) (h : heap) : loc * heap :=
  let g := new_router in
  let g := mkRouter (Some r) path (trees g) (registeredPaths g)
                    (RedirectTrailingSlash g) (RedirectFixedPath g)
                    (HandleMethodNotAllowed g) (HandleOPTIONS g)
                    (NotFound g) (MethodNotAllowed g) (PanicHandler g) in
  (length h, (h ++ [g])%list).

(** [for _, p := range paths { root.addRoute(p, handle) }]: the loop
    stops at the first panic. *)
Fixpoint addRoutes (root : node) (paths : list string) (handle : RequestHandler)
  : node * option PanicValue :=
  match paths with
  | [] => (root, None)
  | p :: rest =>
      match addRoute root p handle with
      | (root', None) => addRoutes root' rest handle
      | (root', Some v) => (root', Some v)
      end
  end.

(** Lines 238-247: the route itself when the pattern has no optional
    paths, and each optional path otherwise. *)
Definition insertRoutes (root : node) (path : string) (handle : RequestHandler)
  : node * option PanicValue :=
  let optionalPaths := getOptionalPaths path in
  if (length optionalPaths =? 0)%nat then addRoute root path handle
  else addRoutes root optionalPaths handle.

Definition finish (h : heap) (o : option PanicValue) : option (Res unit * heap) :=
  match o with
  | None => Some (Val tt, h)
  | Some v => Some (Panicked v, h)
  end.

(** Line 220-222: the path as the router [rt] passes it on. *)
Definition prefixed (rt : Router) (path : string) : string :=
  if negb (str_eqb (beginPath rt) "/") then beginPath rt +:+ path else path.

(** Line 224 *)
Definition record_path (method path : string) (rt : Router) : Router :=
  set_registeredPaths
    (<[method := (default [] (registeredPaths rt !! method) ++ [path])%list]>
       (registeredPaths rt)) rt.

(** [r.Handle(method, path, handle)]. The recursion follows the parent
    pointers; [fuel] bounds the length of the chain, and [None] means
    that it ran out. *)
Fixpoint Handle_fuel (fuel : nat) (r : loc) (method path : string)
         (handle : RequestHandler) (h : heap) : option (Res unit * heap) :=
  match fuel with
  | O => None
  | S fuel' =>
    match String.get 0 path with
    | None => Some (Panicked (RuntimeIndexOutOfRange 0 0), h)
    | Some c =>
      if negb (Ascii.eqb c "/") then
        Some (Panicked (PanicString
                ("path must begin with '/' in path '" +:+ path +:+ "'")), h)
      else
        match h !! r with
        | None => Some (Panicked RuntimeNilDereference, h)
        | Some rt =>
          let path := prefixed rt path in
          let rt1 := record_path method path rt in
          let h1 := <[r := rt1]> h in
          match parent rt1 with
          | Some p => Handle_fuel fuel' p method path handle h1
          | None =>
            let root := default new_node (trees rt1 !! method) in
            let '(root', o) := insertRoutes root path handle in
            finish (<[r := set_trees (<[method := root']> (trees rt1)) rt1]> h1) o
          end
        end
    end
  end.

(** Groups are created top-down, so a router's parent has a smaller
    address than the router itself, and [S r] is enough fuel at [r]. *)
Definition Handle (r : loc) (method path : string) (handle : RequestHandler)
           (h : heap) : option (Res unit * heap) :=
  Handle_fuel (S r) r method path handle h.

Definition heap_wf (h : heap) : Prop :=
  forall (i : nat) (rt : Router) (p : loc),
    h !! i = Some rt -> parent rt = Some p -> (p < i)%nat.

(** [r.List()] *)
Definition List (r : Router) : gmap string (list string) := registeredPaths r.

(** [r.Lookup(method, path, ctx)]: the handler and the trailing-slash
    flag, and the context with the parameters [getValue] bound. *)
Definition Lookup (r : Router) (method path : string) (c : RequestCtx)
  : (option RequestHandler * bool) * RequestCtx :=
  match trees r !! method with
  | Some root =>
      let '(f, tsr, ps) := getValue root path in
      ((f, tsr), SetUserValues ps c)
  | None => ((None, false), c)
  end.

(** The body of both loops of [allowed]: the method joins the list. *)
Definition add_allow (allow method : string) : string :=
  if (len allow =? 0)%nat then method else allow +:+ ", " +:+ method.

(** [r.allowed(path, reqMethod)]. Go ranges over [r.trees] in an order
    the runtime picks; [order] is that order of the keys. *)
Definition allowed (order : list string) (r : Router) (path reqMethod : string) : string :=
  let allow :=
    if str_eqb path "*" || str_eqb path "/*" then
      fold_left
        (fun allow method =>
           if str_eqb method "OPTIONS" then allow
           else add_allow allow method)
        order EmptyString
    else
      fold_left
        (fun allow method =>
           if str_eqb method reqMethod || str_eqb method "OPTIONS" then allow
           else
             match trees r !! method with
             | Some t =>
                 match getValue t path with
                 | (Some _, _, _) => add_allow allow method
                 | (None, _, _) => allow
                 end
             | None => allow
             end)
        order EmptyString in
  if (0 <? len allow)%nat then allow +:+ ", OPTIONS" else allow.

(** [order] is an order in which Go may range over the map [m]. *)
Definition range_order (m : gmap string node) (order : list string) : Prop :=
  NoDup order /\ list_to_set order = dom m.

(** Lines 403-408: the 404 fallback. *)
Definition handle404 (r : Router) : M ServeState unit :=
  match NotFound r with
  | Some nf => emit (EvNotFound true) ;; call nf
  | None =>
      emit (EvNotFound false) ;;
      on_resp (ctx_Error (StatusMessage StatusNotFound) StatusNotFound)
  end.

(** Lines 378-408: OPTIONS auto-reply, 405, and then 404. *)
Definition fallbacks (order : list string) (r : Router) (path method : string)
  : M ServeState unit :=
  if str_eqb method "OPTIONS" then
    if HandleOPTIONS r then
      let allow := allowed order r path method in
      if (0 <? len allow)%nat then
        emit (EvOptionsReply allow) ;;
        on_resp (HeaderSet "Allow" allow)
      else handle404 r
    else handle404 r
  else
    if HandleMethodNotAllowed r then
      let allow := allowed order r path method in
      if (0 <? len allow)%nat then
        on_resp (HeaderSet "Allow" allow) ;;
        match MethodNotAllowed r with
        | Some mna => emit (EvMethodNotAllowed allow true) ;; call mna
        | None =>
            emit (EvMethodNotAllowed allow false) ;;
            on_resp (SetStatusCode StatusMethodNotAllowed) ;;
            on_resp (SetContentType defaultContentType) ;;
            on_resp (SetBodyString (StatusMessage StatusMethodNotAllowed))
        end
      else handle404 r
    else handle404 r.

(** Lines 329-334: the status code of a redirect. *)
Definition redirect_code (method : string) : Z :=
  if negb (str_eqb method "GET") then 307 else 301.

(** Lines 339-349: the target of a trailing-slash redirect. *)
Definition tsr_uri (c : RequestCtx) (path : string) : string :=
  let uri :=
    if (1 <? len path)%nat && last_is "/" path then drop_last path
    else path +:+ "/" in
  if (0 <? len (QueryString c))%nat then uri +:+ "?" +:+ QueryArgsString c
  else uri.

(** Lines 366-370: the target of a fixed-path redirect. *)
Definition fixed_uri (c : RequestCtx) (fixedPath : string) : string :=
  if (0 <? len (QueryString c))%nat then fixedPath +:+ questionMark +:+ QueryString c
  else fixedPath.

(** Lines 321-409: [Handler] without its deferred [recv]. *)
Definition serve (order : list string) (r : Router) : M ServeState unit :=
  s ← get ;
  let path := Path (ctx s) in
  let method := Method (ctx s) in
  match trees r !! method with
  | Some root =>
      let '(f, tsr, ps) := getValue root path in
      on_ctx (SetUserValues ps) ;;
      match f with
      | Some f => emit EvHandle ;; call f
      | None =>
          if negb (str_eqb method "CONNECT") && negb (str_eqb path "/") then
            let code := redirect_code method in
            if tsr && RedirectTrailingSlash r then
              let uri := tsr_uri (ctx s) path in
              emit (EvRedirect TrailingSlash uri code) ;;
              on_ctx (ctx_Redirect uri code)
            else if RedirectFixedPath r then
              match findCaseInsensitivePath root (cleanPath path)
                                            (RedirectTrailingSlash r) with
              | Some fixedPath =>
                  let uri := fixed_uri (ctx s) fixedPath in
                  emit (EvRedirect FixedPath uri code) ;;
                  on_ctx (ctx_Redirect uri code)
              | None => fallbacks order r path method
              end
            else fallbacks order r path method
          else fallbacks order r path method
      end
  | None => fallbacks order r path method
  end.

(** [r.recv(ctx)], deferred by [Handler] when a panic handler is set. *)
Definition recv (ph : PanicValue -> RequestHandler) (v : PanicValue)
  : M ServeState unit :=
  emit (EvPanicHandler v) ;; call (ph v).

(** [r.Handler(ctx)] *)
Definition Handler (order : list string) (r : Router) : M ServeState unit :=
  match PanicHandler r with
  | Some ph => recovering (serve order r) (recv ph)
  | None => serve order r
  end.

(** Serving the request [c]: [Handler] run on it, from an empty trace. *)
Definition Serve (order : list string) (r : Router) (c : RequestCtx)
  : Res unit * ServeState :=
  Handler order r (mkServe c []).

(** The tree of [method] has a handler for exactly [path]. *)
Definition matches (r : Router) (path method : string) : bool :=
  match trees r !! method with
  | Some t => bool_decide (is_Some (getValue t path).1.1)
  | None => false
  end.

(** What line 460-462 does to the list the loops built. *)
Definition with_OPTIONS (allow : string) : string :=
  if (0 <? len allow)%nat then allow +:+ ", OPTIONS" else allow.

(** The methods the loop for a specific path adds: not the request
    method, not OPTIONS, and with a tree that matches the path. *)
Definition probed (r : Router) (path reqMethod method : string) : bool :=
  negb (str_eqb method reqMethod || str_eqb method "OPTIONS") && matches r path method.

(** The methods the server-wide loop adds: all but OPTIONS. *)
Definition listed (method : string) : bool := negb (str_eqb method "OPTIONS").

(** [path == "*" || path == "/*"] *)
Definition server_wide (path : string) : bool :=
  str_eqb path "*" || str_eqb path "/*".

(** The chain of routers from [g] up to the root: the groups on the
    way, innermost first, and the root they end in. *)
Inductive chain (h : heap) : loc -> list Router -> loc -> Prop :=
  | chain_root r rt :
      h !! r = Some rt -> parent rt = None -> chain h r [] r
  | chain_group g rt p gs root :
      h !! g = Some rt -> parent rt = Some p ->
      chain h p gs root -> chain h g (rt :: gs) root.

(** A prefix a group may have: with it the path still starts with [/]
    when the parent checks it. *)
Definition prefix_ok (rt : Router) : Prop :=
  beginPath rt = EmptyString \/ String.get 0 (beginPath rt) = Some "/"%char.

(** The path the root receives: every router on the way has put its
    prefix in front, the innermost first. *)
Definition chain_path (gs : list Router) (path : string) : string :=
  fold_left (fun p g => prefixed g p) gs path.

End Router.

Abbreviation heap := (list Router) (only parsing).

(** ** The shortcuts and the file routes of the router *)

(** [fasthttp]'s file server, as [ServeFiles] and [ServeFilesCustom] use
    it. *)
Class FileServer : Type := {
  (** [fasthttp.FSHandler(root, stripSlashes)] *)
  FSHandler : string -> nat -> RequestHandler;
  (** [fasthttp.PathRewriteFunc] and [fasthttp.NewPathSlashesStripper] *)
  PathRewriteFunc : Type;
  NewPathSlashesStripper : nat -> PathRewriteFunc;
  (** The fields of [fasthttp.FS] other than [PathRewrite]. *)
  FSFields : Type;
  (** [fs.NewRequestHandler()] *)
  NewRequestHandler : FSFields -> option PathRewriteFunc -> RequestHandler
}.

Section Files.

Context `{Trie} `{PathUtil} `{FileServer}.

(** [fasthttp.FS], with the one field the router writes. *)
Record FS : Type := mkFS {
  PathRewrite : option PathRewriteFunc;
  fs_fields : FSFields
}.

(** [r.GET(path, handle)] and the other shortcuts. *)
Definition GET (r : loc) (path : string) (handle : RequestHandler) (h : heap) :=
  Handle r "GET" path handle h.
Definition HEAD (r : loc) (path : string) (handle : RequestHandler) (h : heap) :=
  Handle r "HEAD" path handle h.
Definition OPTIONS (r : loc) (path : string) (handle : RequestHandler) (h : heap) :=
  Handle r "OPTIONS" path handle h.
Definition POST (r : loc) (path : string) (handle : RequestHandler) (h : heap) :=
  Handle r "POST" path handle h.
Definition PUT (r : loc) (path : string) (handle : RequestHandler) (h : heap) :=
  Handle r "PUT" path handle h.
Definition PATCH (r : loc) (path : string) (handle : RequestHandler) (h : heap) :=
  Handle r "PATCH" path handle h.
Definition DELETE (r : loc) (path : string) (handle : RequestHandler) (h : heap) :=
  Handle r "DELETE" path handle h.

(** [len(path) < 10 || path[len(path)-10:] != "/*filepath"] *)
Definition not_filepath (path : string) : bool :=
  (len path <? 10)%nat ||
  negb (str_eqb (String.substring (len path - 10) 10 path) "/*filepath").

(** [strings.Count(s, "/")] *)
Fixpoint count_slash (s : string) : nat :=
  match s with
  | EmptyString => 0%nat
  | String c s' => ((if Ascii.eqb c "/" then 1 else 0) + count_slash s')%nat
  end.

(** [path[:len(path)-10]] *)
Definition files_prefix (path : string) : string :=
  String.substring 0 (len path - 10) path.

Definition filepath_panic (path : string) : PanicValue :=
  PanicString ("path must end with /*filepath in path '" +:+ path +:+ "'").

(** [r.ServeFiles(path, rootPath)], with fuel for the parent chain as
    in [Handle_fuel]. *)
Fixpoint ServeFiles_fuel (fuel : nat) (r : loc) (path rootPath : string) (h : heap)
  : option (Res unit * heap) :=
  match fuel with
  | O => None
  | S fuel' =>
    if not_filepath path then Some (Panicked (filepath_panic path), h)
    else
      match h !! r with
      | None => Some (Panicked RuntimeNilDereference, h)
      | Some rt =>
        let path := prefixed rt path in
        match parent rt with
        | Some p => ServeFiles_fuel fuel' p path rootPath h
        | None =>
          let prefix := files_prefix path in
          let fileHandler := FSHandler rootPath (count_slash prefix) in
          GET r path (fun c => fileHandler c) h
        end
      end
  end.

Definition ServeFiles (r : loc) (path rootPath : string) (h : heap)
  : option (Res unit * heap) :=
  ServeFiles_fuel (S r) r path rootPath h.

(** [r.ServeFilesCustom(path, fs)]: the heap, and [fs] as the call
    leaves it. *)
Fixpoint ServeFilesCustom_fuel (fuel : nat) (r : loc) (path : string) (fs : FS) (h : heap)
  : option (Res unit * (FS * heap)) :=
  match fuel with
  | O => None
  | S fuel' =>
    if not_filepath path then Some (Panicked (filepath_panic path), (fs, h))
    else
      match h !! r with
      | None => Some (Panicked RuntimeNilDereference, (fs, h))
      | Some rt =>
        let path := prefixed rt path in
        match parent rt with
        | Some p => ServeFilesCustom_fuel fuel' p path fs h
        | None =>
          let prefix := files_prefix path in
          let stripSlashes := count_slash prefix in
          let fs :=
            match PathRewrite fs with
            | None =>
                if (0 <? stripSlashes)%nat
                then mkFS (Some (NewPathSlashesStripper stripSlashes)) (fs_fields fs)
                else fs
            | Some _ => fs
            end in
          let fileHandler := NewRequestHandler (fs_fields fs) (PathRewrite fs) in
          match GET r path (fun c => fileHandler c) h with
          | Some (res, h') => Some (res, (fs, h'))
          | None => None
          end
        end
      end
  end.

Definition ServeFilesCustom (r : loc) (path : string) (fs : FS) (h : heap)
  : option (Res unit * (FS * heap)) :=
  ServeFilesCustom_fuel (S r) r path fs h.

End Files.

(** ** Dispatch, seen from outside *)

Section Outcomes.

Context `{Trie} `{PathUtil}.

(** The request gets past the tree of its method and the redirects, to
    lines 378-408: the method has no tree, or the tree has no handler for
    the path and neither redirect applies. *)
Definition falls_through (r : Router) (c : RequestCtx) : Prop :=
  match trees r !! Method c with
  | None => True
  | Some root =>
      (getValue root (Path c)).1.1 = None /\
      (Method c = "CONNECT" \/ Path c = "/" \/
       (((getValue root (Path c)).1.2 = false \/ RedirectTrailingSlash r = false) /\
        (RedirectFixedPath r = false \/
         findCaseInsensitivePath root (cleanPath (Path c)) (RedirectTrailingSlash r) = None)))
  end.

(** The parameters [getValue] binds on the context of the request. *)
Definition bound_params (r : Router) (c : RequestCtx) : list (string * string) :=
  match trees r !! Method c with
  | None => []
  | Some root => (getValue root (Path c)).2
  end.

(** The context of the request once [getValue] has run on it. *)
Definition looked_up (r : Router) (c : RequestCtx) : RequestCtx :=
  match trees r !! Method c with
  | None => c
  | Some root => SetUserValues (getValue root (Path c)).2 c
  end.

(** What an event is, apart from the strings it carries. *)
Inductive EventKind : Type :=
  | KHandle | KRedirect (k : RedirectKind) | KOptionsReply
  | KMethodNotAllowed | KNotFound | KPanicHandler.

Definition kind_of_event (e : Event) : EventKind :=
  match e with
  | EvHandle => KHandle
  | EvRedirect k _ _ => KRedirect k
  | EvOptionsReply _ => KOptionsReply
  | EvMethodNotAllowed _ _ => KMethodNotAllowed
  | EvNotFound _ => KNotFound
  | EvPanicHandler _ => KPanicHandler
  end.


(** No router with a parent has a tree. *)
Definition groups_own_no_tree (h : heap) : Prop :=
  forall i rt, h !! i = Some rt -> is_Some (parent rt) -> trees rt = ∅.

(** [rt'] is [rt] but for the tree and the registered paths of [method],
    and the paths of [method] have only grown. *)
Definition same_but_method (method : string) (rt rt' : Router) : Prop :=
  parent rt' = parent rt /\ beginPath rt' = beginPath rt /\
  RedirectTrailingSlash rt' = RedirectTrailingSlash rt /\
  RedirectFixedPath rt' = RedirectFixedPath rt /\
  HandleMethodNotAllowed rt' = HandleMethodNotAllowed rt /\
  HandleOPTIONS rt' = HandleOPTIONS rt /\
  NotFound rt' = NotFound rt /\ MethodNotAllowed rt' = MethodNotAllowed rt /\
  PanicHandler rt' = PanicHandler rt /\
  (forall m, m <> method ->
     trees rt' !! m = trees rt !! m /\ registeredPaths rt' !! m = registeredPaths rt !! m) /\
  (exists added,
     default [] (registeredPaths rt' !! method) =
     (default [] (registeredPaths rt !! method) ++ added)%list).

End Outcomes.

(** ** The Prometheus middleware ([prometheus.go]) *)

(** The histogram of [client_golang] and the clock, as [HandlerFunc] uses
    them. *)
Class Histogram : Type := {
  (** [float64(time.Since(start)) / float64(time.Second)] *)
  Elapsed : Type;
  (** The error of [reqDur.GetMetricWithLabelValues(status, ep)], if any. *)
  label_error : string -> string -> option string;
  (** [prometheusHandler()] *)
  prometheusHandler : RequestHandler
}.

Section Middleware.

Context `{Trie} `{PathUtil} `{Histogram}.

Definition defaultMetricPath : string := "/metrics".

(** The fields of [Prometheus] that the modelled methods touch. *)
Record Prometheus : Type := mkPrometheus {
  p_router : option loc;
  listenAddress : string;
  MetricsPath : string
}.

(** [NewPrometheus(subsystem)], apart from the registration of the
    histogram. *)
Definition NewPrometheus : Prometheus :=
  mkPrometheus None EmptyString defaultMetricPath.

(** [p.Use(r)]: the middleware and the heap as the call leaves them.
    ([p.Handler] is [HandlerFunc] below, read off [p] when a request is
    served.) *)
Definition Use (r : loc) (p : Prometheus) (h : heap)
  : option (Res unit * (Prometheus * heap)) :=
  let p := mkPrometheus (Some r) (listenAddress p) (MetricsPath p) in
  match GET r (MetricsPath p) prometheusHandler h with
  | Some (res, h') => Some (res, (p, h'))
  | None => None
  end.

(** [strconv.Itoa] *)
Definition Itoa (z : Z) : string := NilZero.string_of_int (Z.to_int z).

(** What the middleware has done besides serving: the observations it
    made on the histogram, and the lines it logged. *)
Record MwState : Type := mkMw {
  served : ServeState;
  observed : list (string * string * Elapsed);
  logged : list string
}.

(** Lines 118-126: the loop over the registered paths of the method. Each
    path is looked up as if it were the path of a request, on the context
    of the request, and the last one that finds a handler is kept. *)
Definition resolve_uri (r : Router) (method : string) (paths : list string)
           (uri : string) (c : RequestCtx) : string * RequestCtx :=
  fold_left
    (fun '(uri, c) v =>
       let '((handler, _), c') := Lookup r method v c in
       match handler with
       | Some _ => (v, c')
       | None => (uri, c')
       end)
    paths (uri, c).

(** Running the router inside the middleware. *)
Definition mw_Handler (order : list string) (r : Router) : M MwState unit :=
  fun s =>
    let '(res, s') := Handler order r (served s) in
    (res, mkMw s' (observed s) (logged s)).

(** The function [p.HandlerFunc()] returns, on the router [p.router]
    points to; [elapsed] is what the clock gives for the request. *)
Definition HandlerFunc (order : list string) (p : Prometheus) (h : heap) (elapsed : Elapsed)
  : M MwState unit :=
  fun s =>
    let uri := Path (ctx (served s)) in
    match p_router p ≫= (fun l => h !! l) with
    | None => (Panicked RuntimeNilDereference, s)
    | Some r =>
      if str_eqb uri (MetricsPath p) then mw_Handler order r s
      else
        match mw_Handler order r s with
        | (Panicked v, s') => (Panicked v, s')
        | (Val _, s') =>
          let c := ctx (served s') in
          let status := Itoa (StatusCode (Resp c)) in
          let routeList := List r in
          let '(uri, c) :=
            match routeList !! Method c with
            | Some paths => resolve_uri r (Method c) paths uri c
            | None => (uri, c)
            end in
          let ep := Method c +:+ "_" +:+ uri in
          let line := "Value prometheus send to grafana: " +:+ ep in
          let served' := mkServe c (trace (served s')) in
          match label_error status ep with
          | Some err =>
              (Val tt, mkMw served' (observed s')
                            (logged s' ++ [line; "Fail to GetMetricWithLabelValues: " +:+ err])%list)
          | None =>
              (Val tt, mkMw served' (observed s' ++ [(status, ep, elapsed)])%list
                            (logged s' ++ [line])%list)
          end
        end
    end.

End Middleware.

(** ** A table-based trie, to run the router on concrete requests *)

Module SpecTrie.

(** [/a/b] is the segments [[""; "a"; "b"]]. *)
Fixpoint split_slash (s : string) : list string :=
  match s with
  | EmptyString => [EmptyString]
  | String c s' =>
      if Ascii.eqb c "/" then EmptyString :: split_slash s'
      else match split_slash s' with
           | seg :: rest => String c seg :: rest
           | [] => [String c EmptyString]
           end
  end.

Definition join_slash (segs : list string) : string := String.concat "/" segs.

Definition to_lower (c : ascii) : ascii :=
  let n := nat_of_ascii c in
  if (65 <=? n)%nat && (n <=? 90)%nat then ascii_of_nat (n + 32) else c.

Fixpoint lower (s : string) : string :=
  match s with
  | EmptyString => EmptyString
  | String c s' => String (to_lower c) (lower s')
  end.

Inductive seg_kind : Type := Static | Param (name : string) | CatchAll (name : string).

Definition kind_of (seg : string) : seg_kind :=
  match seg with
  | String ":" name => Param name
  | String "*" name => CatchAll name
  | _ => Static
  end.

(** Modelled from the spec: the matching of a path against one
    registered pattern, segment by segment (the tree of [tree.go] is not
    among the sources). A static segment matches exactly, a named
    parameter matches one non-empty segment and binds it, a catch-all
    matches the rest of the path and binds it with a leading [/]. *)
Fixpoint match_segs (pat path : list string) : option (list (string * string)) :=
  match pat, path with
  | [], [] => Some []
  | p :: pat', s :: path' =>
      match kind_of p with
      | CatchAll name =>
          match pat' with
          | [] => Some [(name, "/" +:+ join_slash (s :: path'))]
          | _ => None
          end
      | Param name =>
          if (len s =? 0)%nat then None
          else (fun ps => (name, s) :: ps) <$> match_segs pat' path'
      | Static =>
          if str_eqb p s then match_segs pat' path' else None
      end
  | _, _ => None
  end.

(** Modelled from the spec: the case-insensitive walk that rebuilds the
    path in the registered case; parameters and catch-alls keep the
    text of the request. *)
Fixpoint ci_match_segs (pat path : list string) : option (list string) :=
  match pat, path with
  | [], [] => Some []
  | p :: pat', s :: path' =>
      match kind_of p with
      | CatchAll _ =>
          match pat' with
          | [] => Some (s :: path')
          | _ => None
          end
      | Param _ =>
          if (len s =? 0)%nat then None
          else (fun ps => s :: ps) <$> ci_match_segs pat' path'
      | Static =>
          if str_eqb (lower p) (lower s) then (fun ps => p :: ps) <$> ci_match_segs pat' path'
          else None
      end
  | _, _ => None
  end.

(** The routes of one method, in registration order. *)
Definition table : Type := list (string * RequestHandler).

Fixpoint find_route (t : table) (path : list string)
  : option (RequestHandler * list (string * string)) :=
  match t with
  | [] => None
  | (pat, h) :: t' =>
      match match_segs (split_slash pat) path with
      | Some ps => Some (h, ps)
      | None => find_route t' path
      end
  end.

Fixpoint find_ci (t : table) (path : list string) : option string :=
  match t with
  | [] => None
  | (pat, _) :: t' =>
      match ci_match_segs (split_slash pat) path with
      | Some segs => Some (join_slash segs)
      | None => find_ci t' path
      end
  end.

(** The path with its trailing [/] removed, or added. *)
Definition toggle_slash (path : string) : string :=
  if (1 <? len path)%nat && last_is "/" path then drop_last path
  else path +:+ "/".

(** Modelled from the spec: [getValue] (absent from the sources). An
    exact match gives the handler and the bindings; otherwise the flag
    tells whether the path with its trailing [/] toggled is registered. *)
Definition getValue (t : table) (path : string)
  : option RequestHandler * bool * list (string * string) :=
  match find_route t (split_slash path) with
  | Some (h, ps) => (Some h, false, ps)
  | None =>
      (None, bool_decide (is_Some (find_route t (split_slash (toggle_slash path)))), [])
  end.

(** Modelled from the spec: [findCaseInsensitivePath] (absent from the
    sources). *)
Definition findCaseInsensitivePath (t : table) (path : string) (fixTrailingSlash : bool)
  : option string :=
  match find_ci t (split_slash path) with
  | Some fixed => Some fixed
  | None =>
      if fixTrailingSlash then find_ci t (split_slash (toggle_slash path))
      else None
  end.

(** A catch-all anywhere but in the last segment. *)
Fixpoint catch_all_not_last (pat : list string) : bool :=
  match pat with
  | [] => false
  | p :: pat' =>
      match kind_of p, pat' with
      | CatchAll _, _ :: _ => true
      | _, _ => catch_all_not_last pat'
      end
  end.

(** Two patterns that claim the same position of the tree: the same
    pattern twice, or a parameter or catch-all next to another child. *)
Fixpoint conflict (p q : list string) : bool :=
  match p, q with
  | [], [] => true
  | a :: p', b :: q' =>
      match kind_of a, kind_of b with
      | Static, Static => str_eqb a b && conflict p' q'
      | Param n, Param m => negb (str_eqb n m) || conflict p' q'
      | _, _ => true
      end
  | _, _ => false
  end.

(** Modelled from the spec: [addRoute] (absent from the sources). It
    panics on a pattern without a leading [/], on a catch-all that is
    not final, and on a duplicate or ambiguous pattern; otherwise the
    route joins the table. *)
Definition addRoute (t : table) (pat : string) (h : RequestHandler)
  : table * option PanicValue :=
  let segs := split_slash pat in
  match String.get 0 pat with
  | Some "/"%char =>
      if catch_all_not_last segs then
        (t, Some (PanicString "catch-all routes are only allowed at the end of the path"))
      else if existsb (fun '(q, _) => conflict segs (split_slash q)) t then
        (t, Some (PanicString "conflict with an existing route"))
      else ((t ++ [(pat, h)])%list, None)
  | _ => (t, Some (PanicString "path must begin with '/'"))
  end.

Definition spec_trie : Trie :=
  Build_Trie table [] addRoute getValue findCaseInsensitivePath.

End SpecTrie.

Module SpecPath.

(** The longest suffix of segments marked optional, and what is before. *)
Fixpoint split_optional (segs : list string) : list string * list string :=
  match segs with
  | [] => ([], [])
  | s :: rest =>
      let '(base, opt) := split_optional rest in
      match base with
      | [] => if last_is "?" s then ([], s :: opt) else ([s], opt)
      | _ => (s :: base, opt)
      end
  end.

Definition non_empty_path (p : string) : string :=
  if (len p =? 0)%nat then "/" else p.

(** The expansions that keep the first [j] optional segments, for [j]
    from [k] down to [0]. *)
Fixpoint expansions (base opt : list string) (j : nat) : list string :=
  let p := non_empty_path
             (SpecTrie.join_slash (base ++ map drop_last (take j opt))%list) in
  match j with
  | O => [p]
  | S j' => p :: expansions base opt j'
  end.

(** Modelled from the spec: [getOptionalPaths] (absent from the
    sources). The spec leaves the marker of an optional segment open; here
    a segment is optional when it ends in [?]. A pattern with [k] optional
    trailing segments gives its [k+1] expansions, the most specific
    first; a pattern with none gives itself. *)
Definition getOptionalPaths (path : string) : list string :=
  let '(base, opt) := split_optional (SpecTrie.split_slash path) in
  match opt with
  | [] => [path]
  | _ => expansions base opt (length opt)
  end.

(** The number [k] of optional trailing segments of a pattern. *)
Definition optional_count (path : string) : nat :=
  length (snd (split_optional (SpecTrie.split_slash path))).

Fixpoint clean_segs (segs acc : list string) : list string :=
  match segs with
  | [] => rev acc
  | s :: rest =>
      if str_eqb s EmptyString || str_eqb s "." then clean_segs rest acc
      else if str_eqb s ".." then clean_segs rest (tail acc)
      else clean_segs rest (s :: acc)
  end.

(** Modelled from the spec: [cleanPath] (absent from the sources):
    repeated separators collapse, [.] and [..] are resolved lexically,
    and the result starts with [/]. *)
Definition cleanPath (path : string) : string :=
  let segs := clean_segs (SpecTrie.split_slash path) [] in
  let p := "/" +:+ SpecTrie.join_slash segs in
  if (1 <? len p)%nat && last_is "/" path then p +:+ "/" else p.

Definition spec_path : PathUtil := Build_PathUtil getOptionalPaths cleanPath.

End SpecPath.

#[export] Existing Instance SpecTrie.spec_trie.
#[export] Existing Instance SpecPath.spec_path.

(** ** Concrete routers and requests *)

(** A request over http without a host: a target that starts with [/]
    is written in full as [http://] followed by the target. *)
Definition no_host (uri : string) : string := "http://" +:+ uri.

Definition request (method path : string) : RequestCtx :=
  mkCtx method path EmptyString EmptyString no_host [] emptyResponse.

(** A handler that answers 200 with a body. *)
Definition ok_handler (body : string) : RequestHandler :=
  modify (set_Resp (fun r => SetBodyString body (SetStatusCode 200 r))).

(** A handler that panics. *)
Definition panicking_handler (msg : string) : RequestHandler :=
  panic (PanicString msg).

(** A panic handler that answers 500. *)
Definition handler500 : PanicValue -> RequestHandler :=
  fun _ => modify (set_Resp (SetStatusCode 500)).

(** The heap after the registrations [regs] on the routers they name. A
    registration that panics stops the sequence. *)
Fixpoint register_all `{Trie} `{PathUtil}
         (regs : list (loc * string * string * RequestHandler)) (h : heap) : heap :=
  match regs with
  | [] => h
  | (r, method, path, handle) :: rest =>
      match Handle r method path handle h with
      | Some (Val _, h') => register_all rest h'
      | Some (Panicked _, h') => h'
      | None => h
      end
  end.

(** The root router built by [New()] and the registrations [regs]. *)
Definition router_with (regs : list (string * string * RequestHandler)) : Router :=
  let '(r, h) := New [] in
  default new_router
    (register_all (map (fun '(m, p, f) => (r, m, p, f)) regs) h !! r).

(** [GET /foo] and [POST /bar/]. *)
Definition foo_bar_router : Router :=
  router_with [("GET", "/foo", ok_handler "foo"); ("POST", "/bar/", ok_handler "bar")].

(** [HEAD /foo] alone. *)
Definition head_router : Router :=
  router_with [("HEAD", "/foo", ok_handler "foo")].

(** [CONNECT /foo] alone. *)
Definition connect_router : Router :=
  router_with [("CONNECT", "/foo", ok_handler "foo")].

(** [GET /foo] alone. *)
Definition foo_router : Router :=
  router_with [("GET", "/foo", ok_handler "foo")].

(** [GET /boom], whose handler panics, behind a panic handler. *)
Definition boom_router : Router :=
  set_PanicHandler (Some handler500)
    (router_with [("GET", "/boom", panicking_handler "boom")]).

(** [GET /boom], whose handler panics, behind a panic handler that
    panics too. *)
Definition rethrow_router : Router :=
  set_PanicHandler (Some (fun _ => panicking_handler "handler failed"))
    (router_with [("GET", "/boom", panicking_handler "boom")]).

(** A root, its group [/api], and the group [/v1] of that group. *)
Definition api_heap : heap :=
  let '(r, h) := New [] in
  let '(g1, h) := Group r "/api" h in
  let '(g2, h) := Group g1 "/v1" h in
  h.

(** The two groups of [api_heap], the innermost first. *)
Definition api_groups : list Router :=
  [default new_router (api_heap !! 2%nat); default new_router (api_heap !! 1%nat)].

(** A root and its group [/]. *)
Definition slash_group_heap : heap :=
  let '(r, h) := New [] in
  let '(g, h) := Group r "/" h in
  h.

(** A file server and a histogram to run the file routes and the
    middleware on: the file handler answers with the root it serves, and
    every pair of labels is accepted. *)
Definition demo_file_server : FileServer :=
  Build_FileServer (fun root _ => ok_handler root) nat (fun n => n) unit
                   (fun _ _ => ok_handler "fs").

Definition demo_histogram : Histogram :=
  Build_Histogram nat (fun _ _ => None) (ok_handler "metrics").

#[export] Existing Instance demo_file_server.
#[export] Existing Instance demo_histogram.

(** A request with a query. *)
Definition request_with_query (method path query : string) : RequestCtx :=
  mkCtx method path query query no_host [] emptyResponse.

(** A root and its group [api], whose prefix has no leading [/]. *)
Definition bad_prefix_heap : heap :=
  let '(r, h) := New [] in
  let '(g, h) := Group r "api" h in
  h.

(** The setup of [example/main.go]: the middleware is put in use on a new
    router, then [/health] and a route with a parameter are registered. *)
Definition example_setup : Prometheus * heap :=
  let '(r, h) := New [] in
  match Use r NewPrometheus h with
  | Some (_, (p, h)) =>
      (p, register_all [(r, "GET", "/health", ok_handler "pass");
                        (r, "GET", "/values/:id", ok_handler "value")] h)
  | None => (NewPrometheus, h)
  end.

Definition example_router : Router := default new_router (example_setup.2 !! 0%nat).

(** The middleware before it has served anything. *)
Definition fresh (c : RequestCtx) : MwState := mkMw (mkServe c []) [] [].

(** The heap a call of [Handle] leaves, and the heap itself when the
    recursion ran out of fuel. *)
Definition heap_after (o : option (Res unit * heap)) (h : heap) : heap :=
  match o with
  | Some (_, h') => h'
  | None => h
  end.


(** * Properties *)

(** Runs the monadic code of the router one step further. *)
Ltac mrun :=
  unfold mbind, M_bind, mret, M_ret, emit, on_resp, on_ctx, modify, call, get, panic;
  simpl.

Section Registration.

Context `{Trie} `{PathUtil}.

Lemma Handle_fuel_bad_path fuel r method path handle h :
  String.get 0 path <> Some "/"%char ->
  exists v, Handle_fuel (S fuel) r method path handle h = Some (Panicked v, h).
Proof.
  intros Hp. simpl.
  destruct (String.get 0 path) as [c|] eqn:Hc; [|eauto].
  destruct (Ascii.eqb_spec c "/"); [congruence|]. simpl. eauto.
Qed.

Lemma Handle_fuel_root fuel r rt method path handle h :
  String.get 0 path = Some "/"%char ->
  h !! r = Some rt ->
  parent rt = None ->
  let p := prefixed rt path in
  let rt1 := record_path method p rt in
  let ins := insertRoutes (default new_node (trees rt !! method)) p handle in
  Handle_fuel (S fuel) r method path handle h =
    finish (<[r := set_trees (<[method := ins.1]> (trees rt)) rt1]> h) ins.2.
Proof.
  intros Hp Hr Hpar. cbn zeta. simpl.
  rewrite Hp. simpl. rewrite Hr. simpl. rewrite Hpar.
  destruct (insertRoutes _ _ _) as [root' o] eqn:Hi. simpl.
  by rewrite list_insert_insert_eq.
Qed.

(** C8. A call of [Handle] whose path does not start with [/] panics
    and leaves the heap of routers as it was: no [registeredPaths] and
    no tree has changed. When the path is not empty the panic carries
    the message of line 217. *)
Theorem Handle_rejects_missing_slash r method path handle h :
  String.get 0 path <> Some "/"%char ->
  (exists v, Handle r method path handle h = Some (Panicked v, h)) /\
  (path <> EmptyString ->
   Handle r method path handle h =
     Some (Panicked (PanicString
             ("path must begin with '/' in path '" +:+ path +:+ "'")), h)).
Proof.
  intros Hp. split.
  - by apply Handle_fuel_bad_path.
  - intros Hne. unfold Handle. simpl.
    destruct path as [|c s]; [done|]. simpl in *.
    destruct (Ascii.eqb_spec c "/"); [congruence|]. done.
Qed.

(** C10. [Handle] with the empty path stops at [path[0]] with an index
    out of range, for every router, method and handler: it is not the
    panic of line 217, and the heap of routers is left as it was. *)
Theorem Handle_empty_path_index_panic r method handle h :
  Handle r method EmptyString handle h =
    Some (Panicked (RuntimeIndexOutOfRange 0 0), h) /\
  (forall msg, Handle r method EmptyString handle h <> Some (Panicked (PanicString msg), h)).
Proof. split; [reflexivity | intros msg Heq; discriminate Heq]. Qed.

(** *** The routes a registration inserts *)

Lemma insertRoutes_addRoutes root path handle :
  insertRoutes root path handle =
    addRoutes root (match getOptionalPaths path with [] => [path] | ps => ps end) handle.
Proof.
  unfold insertRoutes. destruct (getOptionalPaths path) as [|q ps]; [|done].
  simpl. by destruct (addRoute root path handle) as [root' [v|]].
Qed.

(** The loop of [addRoute] calls: every path in turn, on the tree the
    calls before it left, up to the first call that panics. *)
Lemma addRoutes_calls handle paths :
  forall root,
  let tree_after := fun k =>
    fold_left (fun n q => (addRoute n q handle).1) (take k paths) root in
  let outcome := fun k =>
    paths !! k ≫= (fun q => (addRoute (tree_after k) q handle).2) in
  ((forall k, outcome k = None) ->
     addRoutes root paths handle = (tree_after (length paths), None)) /\
  (forall k v, (forall j, (j < k)%nat -> outcome j = None) -> outcome k = Some v ->
     addRoutes root paths handle = (tree_after (S k), Some v)).
Proof.
  induction paths as [|q paths IH]; intros root; cbn zeta.
  - split; [done|]. intros k v _ Hk. by destruct k.
  - destruct (IH (addRoute root q handle).1) as [IH1 IH2]. cbn zeta in IH1, IH2.
    assert (Hstep : addRoutes root (q :: paths) handle =
              match (addRoute root q handle).2 with
              | None => addRoutes (addRoute root q handle).1 paths handle
              | Some v => ((addRoute root q handle).1, Some v)
              end).
    { simpl. by destruct (addRoute root q handle) as [root' [v|]]. }
    rewrite Hstep. split.
    + intros Hall. pose proof (Hall 0%nat) as Hzero. simpl in Hzero. rewrite Hzero.
      apply IH1. intros k. exact (Hall (S k)).
    + intros k v Hbefore Hk. destruct k as [|k].
      * simpl in Hk. by rewrite Hk.
      * pose proof (Hbefore 0%nat ltac:(lia)) as Hzero. simpl in Hzero. rewrite Hzero.
        apply IH2; [|exact Hk]. intros j Hj. apply (Hbefore (S j)). lia.
Qed.

(** The root after lines 224-247: the path recorded once, and the tree
    of the method as the [addRoute] calls left it. *)
Lemma root_after_Handle rt method p handle :
  let ins := insertRoutes (default new_node (trees rt !! method)) p handle in
  let rt' := set_trees (<[method := ins.1]> (trees rt)) (record_path method p rt) in
  let paths := match getOptionalPaths p with [] => [p] | ps => ps end in
  let tree_after := fun k =>
    fold_left (fun n q => (addRoute n q handle).1) (take k paths)
              (default new_node (trees rt !! method)) in
  let outcome := fun k =>
    paths !! k ≫= (fun q => (addRoute (tree_after k) q handle).2) in
  List rt' !! method = Some (default [] (List rt !! method) ++ [p])%list /\
  (forall m, m <> method ->
     List rt' !! m = List rt !! m /\ trees rt' !! m = trees rt !! m) /\
  ((forall k, outcome k = None) ->
     ins.2 = None /\ trees rt' !! method = Some (tree_after (length paths))) /\
  (forall k v, (forall j, (j < k)%nat -> outcome j = None) -> outcome k = Some v ->
     ins.2 = Some v /\ trees rt' !! method = Some (tree_after (S k))).
Proof.
  cbn zeta. unfold List. simpl. rewrite !lookup_insert_eq.
  split; [done|]. split; [intros m Hm; by rewrite !lookup_insert_ne|].
  rewrite insertRoutes_addRoutes.
  destruct (addRoutes_calls handle
              (match getOptionalPaths p with [] => [p] | ps => ps end)
              (default new_node (trees rt !! method))) as [H1 H2].
  cbn zeta in H1, H2. split.
  - intros Hall. by rewrite (H1 Hall).
  - intros k v Hbefore Hk. by rewrite (H2 k v Hbefore Hk).
Qed.

(** C2 (amended). A call of [Handle] on a root router with a path that
    starts with [/] appends exactly one entry to [registeredPaths[method]],
    the path as it was given (prefixed, optional markers included),
    whatever [getOptionalPaths] returns for it; the lists of the other
    methods are unchanged. The tree of the method receives one [addRoute]
    per optional path, in order, or one for the path itself when there is
    none: when no call panics [Handle] returns and the tree is what the
    last call left; when a call panics [Handle] panics with its value and
    the tree is what that call left. *)
Theorem Handle_records_one_path r rt method path handle h :
  String.get 0 path = Some "/"%char ->
  h !! r = Some rt ->
  parent rt = None ->
  let p := prefixed rt path in
  let paths := match getOptionalPaths p with [] => [p] | ps => ps end in
  let tree_after := fun k =>
    fold_left (fun n q => (addRoute n q handle).1) (take k paths)
              (default new_node (trees rt !! method)) in
  let outcome := fun k =>
    paths !! k ≫= (fun q => (addRoute (tree_after k) q handle).2) in
  exists res h' rt',
    Handle r method path handle h = Some (res, h') /\
    h' !! r = Some rt' /\
    List rt' !! method = Some (default [] (List rt !! method) ++ [p])%list /\
    (forall m, m <> method ->
       List rt' !! m = List rt !! m /\ trees rt' !! m = trees rt !! m) /\
    ((forall k, outcome k = None) ->
       res = Val tt /\ trees rt' !! method = Some (tree_after (length paths))) /\
    (forall k v, (forall j, (j < k)%nat -> outcome j = None) -> outcome k = Some v ->
       res = Panicked v /\ trees rt' !! method = Some (tree_after (S k))).
Proof.
  intros Hp Hr Hpar. cbn zeta. unfold Handle.
  rewrite (Handle_fuel_root _ _ _ _ _ _ _ Hp Hr Hpar). cbn zeta.
  destruct (root_after_Handle rt method (prefixed rt path) handle)
    as (Hlist & Hother & Hok & Hpanic). cbn zeta in Hlist, Hother, Hok, Hpanic.
  set (ins := insertRoutes _ _ _) in *.
  set (rt' := set_trees _ _) in *.
  assert (Hl : (<[r := rt']> h) !! r = Some rt').
  { apply list_lookup_insert_eq. by eapply lookup_lt_Some. }
  exists (match ins.2 with None => Val tt | Some v => Panicked v end), (<[r := rt']> h), rt'.
  split; [by destruct ins.2|]. split; [exact Hl|]. split; [exact Hlist|].
  split; [exact Hother|]. split.
  - intros Hall. destruct (Hok Hall) as [-> Htree]. done.
  - intros k v Hbefore Hk. destruct (Hpanic k v Hbefore Hk) as [-> Htree]. done.
Qed.

(** *** Groups *)

Lemma heap_wf_nil : heap_wf [].
Proof. intros i rt p Hi. by rewrite lookup_nil in Hi. Qed.

Lemma heap_wf_snoc (h : list Router) rt :
  heap_wf h ->
  (forall p, parent rt = Some p -> (p < length h)%nat) ->
  heap_wf (h ++ [rt]).
Proof.
  intros Hwf Hrt i ri p Hi Hp.
  destruct (decide (i < length h)%nat) as [Hlt|Hge].
  - rewrite lookup_app_l in Hi by done. by eapply Hwf.
  - rewrite lookup_app_r in Hi by lia.
    destruct (i - length h)%nat as [|n] eqn:E; simpl in Hi; [|by rewrite lookup_nil in Hi].
    injection Hi as <-. specialize (Hrt _ Hp). lia.
Qed.

(** [New] and [Group] keep the heap well formed. *)
Lemma heap_wf_New h : heap_wf h -> heap_wf (New h).2.
Proof. intros Hwf. apply heap_wf_snoc; [done|]. intros p Hp. discriminate Hp. Qed.

Lemma heap_wf_Group h r path :
  heap_wf h -> (r < length h)%nat -> heap_wf (Group r path h).2.
Proof.
  intros Hwf Hr. apply heap_wf_snoc; [done|]. simpl. intros p [= <-]. done.
Qed.

Lemma chain_root_le h g gs root :
  heap_wf h -> chain h g gs root -> (root <= g)%nat.
Proof.
  intros Hwf Hc. induction Hc as [r rt Hr Hp | g rt p gs root Hg Hp Hc IH]; [lia|].
  specialize (Hwf _ _ _ Hg Hp). lia.
Qed.

Lemma chain_insert_above h g gs root j x :
  heap_wf h -> chain h g gs root -> (g < j)%nat ->
  chain (<[j := x]> h) g gs root.
Proof.
  intros Hwf Hc. induction Hc as [r rt Hr Hp | g rt p gs root Hg Hp Hc IH]; intros Hj.
  - eapply chain_root; [|done]. rewrite list_lookup_insert_ne; [done|lia].
  - eapply chain_group; [|done|].
    + rewrite list_lookup_insert_ne; [done|lia].
    + apply IH. specialize (Hwf _ _ _ Hg Hp). lia.
Qed.

Lemma heap_wf_insert h i rt rt' :
  heap_wf h -> h !! i = Some rt -> parent rt' = parent rt ->
  heap_wf (<[i := rt']> h).
Proof.
  intros Hwf Hi Hp j rj q Hj Hq.
  destruct (decide (i = j)) as [->|Hne].
  - rewrite list_lookup_insert_eq in Hj by (by eapply lookup_lt_Some).
    injection Hj as <-. rewrite Hp in Hq. by eapply Hwf.
  - rewrite list_lookup_insert_ne in Hj by done. by eapply Hwf.
Qed.



Lemma prefixed_slash rt path :
  prefix_ok rt -> String.get 0 path = Some "/"%char ->
  String.get 0 (prefixed rt path) = Some "/"%char.
Proof.
  intros Hok Hp. unfold prefixed.
  destruct (negb _); [|done].
  destruct Hok as [-> | Hb]; [done|].
  destruct (beginPath rt); [done|]. done.
Qed.

Lemma Handle_fuel_chain root rt0 method handle gs :
  forall g fuel path h,
  chain h g gs root ->
  heap_wf h ->
  (g < fuel)%nat ->
  h !! root = Some rt0 ->
  beginPath rt0 = "/" ->
  String.get 0 path = Some "/"%char ->
  Forall prefix_ok gs ->
  let full := chain_path gs path in
  let ins := insertRoutes (default new_node (trees rt0 !! method)) full handle in
  exists h',
    Handle_fuel fuel g method path handle h = finish h' ins.2 /\
    h' !! root = Some (set_trees (<[method := ins.1]> (trees rt0))
                                 (record_path method full rt0)) /\
    (forall i rt, i <> root -> h !! i = Some rt ->
       exists rt', h' !! i = Some rt' /\ trees rt' = trees rt).
Proof.
  induction gs as [|rt gs IH];
    intros g fuel path h Hc Hwf Hfuel Hroot Hbegin Hpath Hok;
    inversion Hc as [r rt' Hr Hp | g' rt' p gs' root' Hg Hp Hc']; subst;
    (destruct fuel as [|fuel]; [lia|]); cbn zeta.
  - assert (rt0 = rt') as -> by congruence.
    rewrite (Handle_fuel_root _ _ _ _ _ _ _ Hpath Hr Hp). cbn zeta.
    assert (Hpre : prefixed rt' path = path).
    { unfold prefixed, str_eqb. rewrite Hbegin. done. }
    rewrite Hpre. unfold chain_path. simpl.
    eexists. split; [reflexivity|]. split.
    + apply list_lookup_insert_eq. by eapply lookup_lt_Some.
    + intros i rti Hi Hl. exists rti. by rewrite list_lookup_insert_ne.
  - pose proof (Hwf _ _ _ Hg Hp) as Hlt.
    pose proof (chain_root_le _ _ _ _ Hwf Hc') as Hle.
    apply Forall_cons in Hok as [Hok1 Hok].
    set (rt1 := record_path method (prefixed rt path) rt).
    set (h1 := <[g := rt1]> h).
    assert (Hwf1 : heap_wf h1) by (by eapply heap_wf_insert).
    assert (Hc1 : chain h1 p gs root) by (by apply chain_insert_above).
    assert (Hroot1 : h1 !! root = Some rt0).
    { unfold h1. rewrite list_lookup_insert_ne; [done|lia]. }
    destruct (IH p fuel (prefixed rt path) h1 Hc1 Hwf1 ltac:(lia) Hroot1 Hbegin
                 (prefixed_slash _ _ Hok1 Hpath) Hok) as (h' & Hrun & Hr' & Hothers).
    exists h'. split; [|split].
    + simpl. rewrite Hpath. simpl. rewrite Hg. simpl. rewrite Hp. exact Hrun.
    + exact Hr'.
    + intros i rti Hi Hl.
      destruct (decide (i = g)) as [->|Hne].
      * assert (rti = rt) as -> by congruence.
        destruct (Hothers g rt1 Hi) as (rt' & Hl' & Ht).
        { unfold h1. apply list_lookup_insert_eq. by eapply lookup_lt_Some. }
        exists rt'. split; [done|]. by rewrite Ht.
      * apply Hothers; [done|]. unfold h1. by rewrite list_lookup_insert_ne.
Qed.

Lemma chain_path_concat gs path :
  Forall (fun rt => beginPath rt <> "/") gs ->
  chain_path gs path = fold_left (fun p g => beginPath g +:+ p) gs path.
Proof.
  revert path. induction gs as [|rt gs IH]; intros path Hne; [done|].
  apply Forall_cons in Hne as [Hrt Hne]. unfold chain_path in *. simpl.
  rewrite IH by done. f_equal. unfold prefixed, str_eqb.
  rewrite bool_decide_eq_false_2 by done. done.
Qed.

(** C6 (amended). A registration on the innermost group [g] of a chain
    of groups, with a path that starts with [/] and prefixes that keep
    it so, is passed from parent to parent up to the root. Each router
    puts its [beginPath] in front of the path unless that is exactly
    [/], so the root receives [chain_path gs path], which is the
    concatenation of all the prefixes and the path when none of them is
    [/]: the root records that path, and its tree for the method
    receives the [addRoute] calls for it (one per optional path, or one
    for the path itself). Only the root's tree for the method receives
    the insertion: the other trees of the root, and the trees of every
    other router on the heap, the groups among them, are what they
    were. *)
Theorem Handle_group_chain g gs root rt0 method path handle h :
  heap_wf h ->
  chain h g gs root ->
  h !! root = Some rt0 ->
  beginPath rt0 = "/" ->
  String.get 0 path = Some "/"%char ->
  Forall prefix_ok gs ->
  let full := chain_path gs path in
  let paths := match getOptionalPaths full with [] => [full] | ps => ps end in
  let tree_after := fun k =>
    fold_left (fun n q => (addRoute n q handle).1) (take k paths)
              (default new_node (trees rt0 !! method)) in
  let outcome := fun k =>
    paths !! k ≫= (fun q => (addRoute (tree_after k) q handle).2) in
  (exists res h' rt0',
    Handle g method path handle h = Some (res, h') /\
    h' !! root = Some rt0' /\
    List rt0' !! method = Some (default [] (List rt0 !! method) ++ [full])%list /\
    (forall m, m <> method -> trees rt0' !! m = trees rt0 !! m) /\
    ((forall k, outcome k = None) ->
       res = Val tt /\ trees rt0' !! method = Some (tree_after (length paths))) /\
    (forall k v, (forall j, (j < k)%nat -> outcome j = None) -> outcome k = Some v ->
       res = Panicked v /\ trees rt0' !! method = Some (tree_after (S k))) /\
    (forall i rt, i <> root -> h !! i = Some rt ->
       exists rt', h' !! i = Some rt' /\ trees rt' = trees rt)) /\
  (Forall (fun rt => beginPath rt <> "/") gs ->
   full = fold_left (fun p g => beginPath g +:+ p) gs path).
Proof.
  intros Hwf Hc Hroot Hbegin Hpath Hok. cbn zeta. split; [|apply chain_path_concat].
  destruct (Handle_fuel_chain root rt0 method handle gs g (S g) path h
              Hc Hwf (Nat.lt_succ_diag_r g) Hroot Hbegin Hpath Hok)
    as (h' & Hrun & Hroot' & Hothers). cbn zeta in Hrun, Hroot'.
  destruct (root_after_Handle rt0 method (chain_path gs path) handle)
    as (Hlist & Hother & Hgood & Hpanic). cbn zeta in Hlist, Hother, Hgood, Hpanic.
  set (ins := insertRoutes _ _ _) in *.
  exists (match ins.2 with None => Val tt | Some v => Panicked v end), h'.
  eexists. split; [unfold Handle; rewrite Hrun; by destruct ins.2|].
  split; [exact Hroot'|]. split; [exact Hlist|].
  split; [intros m Hm; by destruct (Hother m Hm)|]. split; [|split; [|exact Hothers]].
  - intros Hall. destruct (Hgood Hall) as [-> Htree]. done.
  - intros k v Hbefore Hk. destruct (Hpanic k v Hbefore Hk) as [-> Htree]. done.
Qed.

End Registration.

Section Dispatch.

Context `{Trie} `{PathUtil}.

Lemma handle404_run r s :
  match NotFound r with
  | Some nf =>
      handle404 r s =
        ((nf (ctx s)).1, mkServe (nf (ctx s)).2 (trace s ++ [EvNotFound true]))
  | None =>
      handle404 r s =
        (Val tt, mkServe (set_Resp (ctx_Error "Not Found" 404) (ctx s))
                         (trace s ++ [EvNotFound false]))
  end.
Proof.
  unfold handle404. destruct (NotFound r) as [nf|]; mrun; [|done].
  by destruct (nf (ctx s)).
Qed.

Lemma handle404_trace r s :
  trace (handle404 r s).2 = (trace s ++ [EvNotFound (bool_decide (is_Some (NotFound r)))])%list.
Proof.
  pose proof (handle404_run r s) as Hr.
  destruct (NotFound r); rewrite Hr; done.
Qed.

Lemma fallbacks_trace order r path method s :
  exists e, is_fallback e = true /\
            trace (fallbacks order r path method s).2 = (trace s ++ [e])%list.
Proof.
  unfold fallbacks.
  repeat match goal with
         | |- context [if ?b then _ else _] => destruct b
         end;
    try (eexists; split; [|apply handle404_trace]; done).
  - mrun. eexists. split; [|reflexivity]. done.
  - destruct (MethodNotAllowed r) as [mna|]; mrun.
    + destruct (mna _). simpl. eexists. split; [|reflexivity]. done.
    + eexists. split; [|reflexivity]. done.
Qed.

(** What [serve] does to a request: one action, and for a redirect the
    code, the exemptions and the response. *)
Lemma serve_outcome order r c :
  let out := serve order r (mkServe c []) in
  exists e,
    trace out.2 = [e] /\
    (e = EvHandle /\ matches r (Path c) (Method c) = true \/
     is_fallback e = true \/
     exists k uri,
       e = EvRedirect k uri (redirect_code (Method c)) /\
       Method c <> "CONNECT" /\ Path c <> "/" /\
       out.1 = Val tt /\
       StatusCode (Resp (ctx out.2)) = redirect_code (Method c)).
Proof.
  cbn zeta. unfold serve, matches. mrun.
  assert (Hfb : forall s, trace s = [] ->
            exists e, trace (fallbacks order r (Path c) (Method c) s).2 = [e] /\
                      (e = EvHandle /\ false = true \/ is_fallback e = true \/
                       exists k uri,
                         e = EvRedirect k uri (redirect_code (Method c)) /\
                         Method c <> "CONNECT" /\ Path c <> "/" /\
                         (fallbacks order r (Path c) (Method c) s).1 = Val tt /\
                         StatusCode (Resp (ctx (fallbacks order r (Path c) (Method c) s).2))
                           = redirect_code (Method c))).
  { intros s Hs. destruct (fallbacks_trace order r (Path c) (Method c) s) as (e & He & Ht).
    exists e. rewrite Ht, Hs. auto. }
  destruct (trees r !! Method c) as [root|]; [|by apply Hfb].
  destruct (getValue root (Path c)) as [[f tsr] ps]. mrun.
  destruct f as [f|].
  - mrun. destruct (f _). simpl. eexists. split; [reflexivity|]. left.
    by split.
  - unfold str_eqb.
    destruct (bool_decide_reflect (Method c = "CONNECT")) as [|Hm]; simpl;
      [by apply Hfb|].
    destruct (bool_decide_reflect (Path c = "/")) as [|Hp]; simpl;
      [by apply Hfb|].
    destruct (tsr && RedirectTrailingSlash r).
    + mrun. eexists. split; [reflexivity|]. right. right. eauto 10.
    + destruct (RedirectFixedPath r); [|by apply Hfb].
      destruct (findCaseInsensitivePath _ _ _); [|by apply Hfb].
      mrun. eexists. split; [reflexivity|]. right. right. eauto 10.
Qed.

Lemma recv_run ph v s :
  recv ph v s = ((ph v (ctx s)).1, mkServe (ph v (ctx s)).2 (trace s ++ [EvPanicHandler v])).
Proof. unfold recv. mrun. by destruct (ph v (ctx s)). Qed.

(** [Handler] is [serve], followed by the panic handler when [serve]
    panicked and one is set. *)
Lemma Serve_run order r c :
  let out := serve order r (mkServe c []) in
  Serve order r c =
    match PanicHandler r, out.1 with
    | Some ph, Panicked v => recv ph v out.2
    | _, _ => out
    end.
Proof.
  cbn zeta. unfold Serve, Handler, recovering.
  destruct (PanicHandler r) as [ph|]; [|by destruct (serve _ _ _) as [[[]|] ?]].
  by destruct (serve _ _ _) as [[[]|v] s'].
Qed.

Lemma Serve_outcome order r c :
  let out := Serve order r c in
  exists e rest,
    trace out.2 = e :: rest /\
    (rest = [] \/ exists v, rest = [EvPanicHandler v]) /\
    (e = EvHandle /\ matches r (Path c) (Method c) = true \/
     is_fallback e = true \/
     exists k uri,
       e = EvRedirect k uri (redirect_code (Method c)) /\
       Method c <> "CONNECT" /\ Path c <> "/" /\
       rest = [] /\ out.1 = Val tt /\
       StatusCode (Resp (ctx out.2)) = redirect_code (Method c)).
Proof.
  cbn zeta. rewrite Serve_run. cbn zeta.
  destruct (serve_outcome order r c) as (e & Ht & He). cbn zeta in *.
  destruct (serve order r (mkServe c [])) as [res s'] eqn:Hs. simpl in *.
  assert (Hsame : exists rest, trace s' = e :: rest /\
            (rest = [] \/ exists v, rest = [EvPanicHandler v]) /\
            (e = EvHandle /\ matches r (Path c) (Method c) = true \/
             is_fallback e = true \/
             exists k uri,
               e = EvRedirect k uri (redirect_code (Method c)) /\
               Method c <> "CONNECT" /\ Path c <> "/" /\
               rest = [] /\ res = Val tt /\
               StatusCode (Resp (ctx s')) = redirect_code (Method c))).
  { exists []. split; [done|]. split; [by left|].
    destruct He as [?|[?|(k & uri & ? & ? & ? & ? & ?)]];
      [by left | by right; left |].
    right; right. exists k, uri. repeat split; assumption. }
  destruct (PanicHandler r) as [ph|]; [|by exists e].
  destruct res as [[]|v]; [by exists e|].
  rewrite recv_run. simpl. rewrite Ht. simpl.
  exists e, [EvPanicHandler v]. split; [done|]. split; [eauto|].
  destruct He as [?|[?|(k & uri & ? & ? & ? & ? & ?)]]; [auto|auto|done].
Qed.

(** C1 (amended). Every redirect dispatch produces, trailing-slash or
    fixed-path, carries status 301 when the request method is GET and
    307 when it is any other method (HEAD among them); the response has
    that status, and dispatch returns normally. *)
Theorem Serve_redirect_code order r c k uri code :
  In (EvRedirect k uri code) (trace (Serve order r c).2) ->
  (Method c = "GET" -> code = 301) /\
  (Method c <> "GET" -> code = 307) /\
  StatusCode (Resp (ctx (Serve order r c).2)) = code /\
  (Serve order r c).1 = Val tt.
Proof.
  intros Hin.
  destruct (Serve_outcome order r c) as (e & rest & Ht & Hrest & He). cbn zeta in *.
  rewrite Ht in Hin.
  assert (Hcode : forall m, (m = "GET" -> redirect_code m = 301) /\
                            (m <> "GET" -> redirect_code m = 307)).
  { intros m. unfold redirect_code, str_eqb.
    destruct (bool_decide_reflect (m = "GET")); simpl; split; intros; done. }
  destruct He as [[-> _]|[He|(k' & uri' & -> & _ & _ & -> & Hres & Hst)]].
  - destruct Hin as [Hin|Hin]; [done|].
    destruct Hrest as [->|[v ->]]; [done|]. by destruct Hin.
  - destruct Hin as [Hin|Hin]; [by subst e|].
    destruct Hrest as [->|[v ->]]; [done|]. by destruct Hin.
  - destruct Hin as [Hin|[]]. injection Hin as <- <- <-.
    destruct (Hcode (Method c)). auto.
Qed.

(** C4. When the method is CONNECT or the path is exactly [/], dispatch
    produces no redirect, trailing-slash or fixed-path: what it does is
    the matched handler, or one of OPTIONS auto-reply, 405 and 404
    (followed by the panic handler if that panicked and one is set). *)
Theorem Serve_no_redirect_for_CONNECT_or_root order r c :
  Method c = "CONNECT" \/ Path c = "/" ->
  (forall e, In e (trace (Serve order r c).2) -> is_redirect e = false) /\
  exists e rest,
    trace (Serve order r c).2 = e :: rest /\
    (e = EvHandle \/ is_fallback e = true) /\
    (rest = [] \/ exists v, rest = [EvPanicHandler v]).
Proof.
  intros Hex.
  destruct (Serve_outcome order r c) as (e & rest & Ht & Hrest & He). cbn zeta in *.
  assert (He' : e = EvHandle \/ is_fallback e = true).
  { destruct He as [[? _]|[?|(k & uri & _ & Hm & Hp & _)]]; [auto|auto|].
    destruct Hex; done. }
  split; [|by exists e, rest].
  rewrite Ht. intros e' [<-|Hin].
  - destruct He' as [->|He']; [done|]. by destruct e.
  - destruct Hrest as [->|[v ->]]; [done|]. destruct Hin as [<-|[]]. done.
Qed.

(** C3 (amended). When the matched handler panics with [v]: with a
    panic handler set, the panic stops inside dispatch, the panic handler
    runs once, on [v] and on the context as the handler left it, and
    dispatch returns as the panic handler does: normally when that
    returns, and with the panic of the panic handler when that panics
    itself; with none set, dispatch panics with [v]. *)
Theorem Serve_handler_panic order r c root f tsr ps v c' :
  trees r !! Method c = Some root ->
  getValue root (Path c) = (Some f, tsr, ps) ->
  f (SetUserValues ps c) = (Panicked v, c') ->
  (forall ph, PanicHandler r = Some ph ->
     Serve order r c =
       ((ph v c').1, mkServe (ph v c').2 [EvHandle; EvPanicHandler v]) /\
     length (filter (fun e => is_panic_handler e = true)
                    (trace (Serve order r c).2)) = 1%nat /\
     ((ph v c').1 = Val tt -> (Serve order r c).1 = Val tt) /\
     (forall v', (ph v c').1 = Panicked v' -> (Serve order r c).1 = Panicked v')) /\
  (PanicHandler r = None ->
     Serve order r c = (Panicked v, mkServe c' [EvHandle])).
Proof.
  intros Hroot Hget Hf.
  assert (Hserve : serve order r (mkServe c []) = (Panicked v, mkServe c' [EvHandle])).
  { unfold serve. mrun. rewrite Hroot, Hget. mrun. by rewrite Hf. }
  pose proof (Serve_run order r c) as Hrun. cbn zeta in Hrun.
  rewrite Hserve in Hrun. simpl in Hrun.
  split.
  - intros ph Hph. rewrite Hph in Hrun. rewrite recv_run in Hrun. simpl in Hrun.
    rewrite Hrun. simpl. auto.
  - intros Hph. by rewrite Hph in Hrun.
Qed.

End Dispatch.

Section Allowed.

Context `{Trie} `{PathUtil}.



(** A loop that adds the selected methods is the loop over the
    selected methods. *)
Lemma fold_selected (sel : string -> bool) order acc :
  fold_left (fun allow method => if sel method then add_allow allow method else allow)
            order acc =
  fold_left add_allow (List.filter sel order) acc.
Proof.
  revert acc. induction order as [|m order IH]; intros acc; simpl; [done|].
  destruct (sel m); simpl; apply IH.
Qed.




Lemma fold_left_pointwise (f g : string -> string -> string) order acc :
  (forall a m, f a m = g a m) -> fold_left f order acc = fold_left g order acc.
Proof.
  intros Hfg. revert acc. induction order as [|m order IH]; intros acc; simpl; [done|].
  by rewrite Hfg, IH.
Qed.

Lemma allowed_unfold order r path reqMethod :
  allowed order r path reqMethod =
    with_OPTIONS
      (fold_left add_allow
         (if server_wide path then List.filter listed order
          else List.filter (probed r path reqMethod) order) EmptyString).
Proof.
  unfold allowed, with_OPTIONS, server_wide.
  destruct (str_eqb path "*" || str_eqb path "/*"); rewrite <- fold_selected.
  - erewrite fold_left_pointwise; [reflexivity|].
    intros allow m. unfold listed. by destruct (str_eqb m "OPTIONS").
  - erewrite fold_left_pointwise; [reflexivity|].
    intros allow m. unfold probed, matches.
    destruct (str_eqb m reqMethod || str_eqb m "OPTIONS"); simpl; [done|].
    destruct (trees r !! m) as [t|]; [|done].
    by destruct (getValue t path) as [[[f|] tsr] ps].
Qed.


Lemma server_wide_spec path :
  server_wide path = true <-> path = "*" \/ path = "/*".
Proof.
  unfold server_wide, str_eqb. rewrite orb_true_iff, !bool_decide_eq_true. done.
Qed.



End Allowed.

Section Fallbacks.

Context `{Trie} `{PathUtil}.

Lemma filter_none (f : string -> bool) l :
  (forall m, In m l -> f m = false) -> List.filter f l = [].
Proof.
  induction l as [|x l IH]; intros Hf; simpl; [done|].
  rewrite (Hf x) by (by left). apply IH. intros m Hm. apply Hf. by right.
Qed.

Lemma allowed_empty order r path reqMethod :
  (forall m, matches r path m = false) ->
  (server_wide path = true -> forall m, In m order -> m = "OPTIONS") ->
  allowed order r path reqMethod = EmptyString.
Proof.
  intros Hm Hsw. rewrite allowed_unfold.
  destruct (server_wide path).
  - rewrite filter_none; [done|]. intros m Hin. by rewrite (Hsw eq_refl m Hin).
  - rewrite filter_none; [done|]. intros m _. unfold probed. rewrite Hm.
    by rewrite andb_false_r.
Qed.

Lemma fallbacks_404 order r path method s :
  allowed order r path method = EmptyString ->
  fallbacks order r path method s = handle404 r s.
Proof.
  intros Ha. unfold fallbacks. rewrite Ha. simpl.
  by destruct (str_eqb method "OPTIONS"), (HandleOPTIONS r), (HandleMethodNotAllowed r).
Qed.

Lemma SetUserValues_nil c : SetUserValues [] c = c.
Proof. destruct c. unfold SetUserValues. simpl. by rewrite app_nil_r. Qed.

(** C9 (amended). When no tree of the router matches the path of the
    request, no redirect applies to it (the method is CONNECT, the path
    is [/], or the tree of the method neither reports a trailing-slash
    variant that redirection is enabled for nor finds a case-insensitive
    variant with fixed-path correction enabled), and the path is not
    the server-wide [*] or [/*] unless OPTIONS alone has a tree, then
    dispatch ends in Not Found: the configured not-found handler runs
    if there is one, and otherwise the response is 404 with the
    standard message. A router with nothing registered is such a router
    for every request. *)
Theorem Serve_not_found order r c :
  range_order (trees r) order ->
  (forall m, matches r (Path c) m = false) ->
  (forall root, trees r !! Method c = Some root ->
     Method c = "CONNECT" \/ Path c = "/" \/
     (((getValue root (Path c)).1.2 = false \/ RedirectTrailingSlash r = false) /\
      (RedirectFixedPath r = false \/
       findCaseInsensitivePath root (cleanPath (Path c)) (RedirectTrailingSlash r) = None))) ->
  (Path c = "*" \/ Path c = "/*" -> forall m, is_Some (trees r !! m) -> m = "OPTIONS") ->
  exists c',
    Resp c' = Resp c /\
    (exists rest,
       trace (Serve order r c).2 = EvNotFound (bool_decide (is_Some (NotFound r))) :: rest) /\
    (NotFound r = None ->
       Serve order r c =
         (Val tt, mkServe (set_Resp (ctx_Error "Not Found" 404) c') [EvNotFound false]) /\
       StatusCode (Resp (ctx (Serve order r c).2)) = 404) /\
    (forall nf, NotFound r = Some nf ->
       serve order r (mkServe c []) = ((nf c').1, mkServe (nf c').2 [EvNotFound true])).
Proof.
  intros [Hnd Hdom] Hmatch Hredir Hwild.
  assert (Hallow : allowed order r (Path c) (Method c) = EmptyString).
  { apply allowed_empty; [done|]. intros Hsw m Hin.
    apply Hwild; [by apply server_wide_spec|].
    rewrite <- elem_of_dom, <- Hdom, elem_of_list_to_set. by apply list_elem_of_In. }
  assert (Hserve : exists c', Resp c' = Resp c /\
            serve order r (mkServe c []) = handle404 r (mkServe c' [])).
  { unfold serve. mrun.
    destruct (trees r !! Method c) as [root|] eqn:Hroot.
    - pose proof (Hmatch (Method c)) as Hm. unfold matches in Hm. rewrite Hroot in Hm.
      specialize (Hredir root eq_refl).
      destruct (getValue root (Path c)) as [[f tsr] ps]. simpl in *.
      destruct f as [f|]; [by rewrite bool_decide_eq_true_2 in Hm|].
      exists (SetUserValues ps c). split; [done|]. mrun.
      unfold str_eqb.
      destruct (bool_decide_reflect (Method c = "CONNECT")) as [|Hm'];
        [by apply fallbacks_404|].
      destruct (bool_decide_reflect (Path c = "/")) as [|Hp'];
        [by apply fallbacks_404|].
      simpl.
      destruct Hredir as [?|[?|[Htsr Hfix]]]; [done|done|].
      assert (tsr && RedirectTrailingSlash r = false) as ->.
      { destruct Htsr as [->| ->]; [done|by rewrite andb_false_r]. }
      destruct Hfix as [->| ->]; [by apply fallbacks_404|].
      destruct (RedirectFixedPath r); by apply fallbacks_404.
    - exists c. split; [done|]. by apply fallbacks_404. }
  destruct Hserve as (c' & Hresp & Hserve).
  pose proof (Serve_run order r c) as Hrun. cbn zeta in Hrun.
  pose proof (handle404_run r (mkServe c' [])) as H404.
  exists c'. split; [done|].
  destruct (NotFound r) as [nf|] eqn:Hnf.
  - rewrite <- Hserve in H404. simpl in H404.
    split; [|split; [done|]].
    + rewrite Hrun, H404. simpl.
      destruct (PanicHandler r) as [ph|]; [|by eexists].
      destruct (nf c').1 as [[]|v]; [by eexists|].
      rewrite recv_run. simpl. by eexists.
    + intros nf' [= <-]. exact H404.
  - rewrite <- Hserve in H404. simpl in H404.
    assert (HS : Serve order r c =
              (Val tt, mkServe (set_Resp (ctx_Error "Not Found" 404) c') [EvNotFound false])).
    { rewrite Hrun, H404. simpl. by destruct (PanicHandler r). }
    split; [|split; [|done]].
    + rewrite HS. simpl. by eexists.
    + intros _. split; [done|]. by rewrite HS.
Qed.

(** C7. [Lookup] returns the handler and the trailing-slash flag of
    [getValue] on the tree of the method, or no handler and [false]
    when the method has no tree, and leaves the response untouched. It
    is the lookup of dispatch: when it finds a handler for the request,
    dispatch invokes that handler, on the context [Lookup] leaves, and
    when it finds none, dispatch invokes no route handler. *)
Theorem Lookup_is_dispatch_lookup order r c :
  (forall method path c0,
     (Lookup r method path c0).1 =
       match trees r !! method with
       | Some root => (getValue root path).1
       | None => (None, false)
       end /\
     Resp (Lookup r method path c0).2 = Resp c0) /\
  let look := Lookup r (Method c) (Path c) c in
  match look.1.1 with
  | Some f =>
      serve order r (mkServe c []) = ((f look.2).1, mkServe (f look.2).2 [EvHandle]) /\
      head (trace (Serve order r c).2) = Some EvHandle
  | None => ~ In EvHandle (trace (Serve order r c).2)
  end.
Proof.
  split.
  - intros method path c0. unfold Lookup.
    destruct (trees r !! method) as [root|]; [|done].
    by destruct (getValue root path) as [[f tsr] ps].
  - cbn zeta.
    pose proof (Serve_run order r c) as Hrun. cbn zeta in Hrun.
    unfold Lookup.
    destruct (trees r !! Method c) as [root|] eqn:Hroot.
    + destruct (getValue root (Path c)) as [[f tsr] ps] eqn:Hget. simpl.
      destruct f as [f|].
      * assert (Hs : serve order r (mkServe c []) =
                       ((f (SetUserValues ps c)).1,
                        mkServe (f (SetUserValues ps c)).2 [EvHandle])).
        { unfold serve. mrun. rewrite Hroot, Hget. mrun.
          by destruct (f (SetUserValues ps c)). }
        split; [done|]. rewrite Hrun, Hs. simpl.
        destruct (PanicHandler r) as [ph|]; [|done].
        destruct (f (SetUserValues ps c)).1 as [[]|v]; [done|].
        by rewrite recv_run.
      * intros Hin.
        destruct (Serve_outcome order r c) as (e & rest & Ht & Hrest & He).
        cbn zeta in *. rewrite Ht in Hin.
        assert (Hm : matches r (Path c) (Method c) = false).
        { unfold matches. by rewrite Hroot, Hget. }
        destruct Hin as [->|Hin].
        -- destruct He as [[_ Hm']|[?|(k & uri & ? & _)]]; [congruence|done|done].
        -- destruct Hrest as [->|[v ->]]; [done|]. by destruct Hin.
    + simpl. intros Hin.
      destruct (Serve_outcome order r c) as (e & rest & Ht & Hrest & He).
      cbn zeta in *. rewrite Ht in Hin.
      assert (Hm : matches r (Path c) (Method c) = false).
      { unfold matches. by rewrite Hroot. }
      destruct Hin as [->|Hin].
      * destruct He as [[_ Hm']|[?|(k & uri & ? & _)]]; [congruence|done|done].
      * destruct Hrest as [->|[v ->]]; [done|]. by destruct Hin.
Qed.

End Fallbacks.

(** * The router on concrete requests *)

(** C8 at [Handle("GET", "foo", h)] on a new router. *)
Lemma Handle_rejects_missing_slash_witness :
  String.get 0 "foo" <> Some "/"%char /\
  (exists v, Handle 0 "GET" "foo" (ok_handler "foo") [new_router]
             = Some (Panicked v, [new_router])) /\
  ("foo" <> EmptyString ->
   Handle 0 "GET" "foo" (ok_handler "foo") [new_router] =
     Some (Panicked (PanicString "path must begin with '/' in path 'foo'"), [new_router])).
Proof.
  assert (Hp : String.get 0 "foo" <> Some "/"%char) by (vm_compute; congruence).
  split; [exact Hp|].
  exact (Handle_rejects_missing_slash 0 "GET" "foo" (ok_handler "foo") [new_router] Hp).
Defined.

(** C2 at [GET /a/:b?] on a new router: one entry, and the two routes
    [/a/:b] and [/a] in the tree. *)
Lemma Handle_records_one_path_witness :
  let handle := ok_handler "ab" in
  let p := prefixed new_router "/a/:b?" in
  let paths := match getOptionalPaths p with [] => [p] | ps => ps end in
  let tree_after := fun k =>
    fold_left (fun n q => (addRoute n q handle).1) (take k paths)
              (default new_node (trees new_router !! "GET")) in
  let outcome := fun k =>
    paths !! k ≫= (fun q => (addRoute (tree_after k) q handle).2) in
  paths = ["/a/:b"; "/a"] /\
  map fst (tree_after (length paths)) = ["/a/:b"; "/a"] /\
  exists res h' rt',
    Handle 0 "GET" "/a/:b?" handle [new_router] = Some (res, h') /\
    h' !! 0%nat = Some rt' /\
    List rt' !! "GET" = Some (default [] (List new_router !! "GET") ++ [p])%list /\
    (forall m, m <> "GET" ->
       List rt' !! m = List new_router !! m /\ trees rt' !! m = trees new_router !! m) /\
    ((forall k, outcome k = None) ->
       res = Val tt /\ trees rt' !! "GET" = Some (tree_after (length paths))) /\
    (forall k v, (forall j, (j < k)%nat -> outcome j = None) -> outcome k = Some v ->
       res = Panicked v /\ trees rt' !! "GET" = Some (tree_after (S k))).
Proof.
  cbn zeta. split; [reflexivity|]. split; [reflexivity|].
  exact (Handle_records_one_path 0 new_router "GET" "/a/:b?" (ok_handler "ab")
           [new_router] eq_refl eq_refl eq_refl).
Defined.

(** C2 as stated fails at [GET /a/:b?]: the pattern has one optional
    segment and two expansions, and [registeredPaths["GET"]] gains the one
    entry [/a/:b?]. *)
Lemma Handle_optional_path_one_entry :
  let h' := heap_after (Handle 0 "GET" "/a/:b?" (ok_handler "ab") [new_router])
                       [new_router] in
  let rt' := default new_router (h' !! 0%nat) in
  SpecPath.optional_count "/a/:b?" = 1%nat /\
  getOptionalPaths "/a/:b?" = ["/a/:b"; "/a"] /\
  List new_router !! "GET" = None /\
  List rt' !! "GET" = Some ["/a/:b?"] /\
  ~ (length (default [] (List rt' !! "GET")) = S (SpecPath.optional_count "/a/:b?")).
Proof.
  cbn zeta. repeat split; try (vm_compute; reflexivity).
  vm_compute. intros Heq. discriminate Heq.
Qed.

(** The empty path on a new router. *)
Example Handle_empty_path_example :
  Handle 0 "GET" EmptyString (ok_handler "x") [new_router] =
    Some (Panicked (RuntimeIndexOutOfRange 0 0), [new_router]).
Proof. reflexivity. Qed.

Lemma api_heap_wf : heap_wf api_heap.
Proof.
  change (heap_wf (Group 1 "/v1" (Group 0 "/api" (New []).2).2).2).
  apply heap_wf_Group; [|simpl; lia].
  apply heap_wf_Group; [|simpl; lia].
  apply heap_wf_New, heap_wf_nil.
Qed.

Lemma slash_group_heap_wf : heap_wf slash_group_heap.
Proof.
  change (heap_wf (Group 0 "/" (New []).2).2).
  apply heap_wf_Group; [|simpl; lia].
  apply heap_wf_New, heap_wf_nil.
Qed.

(** C6 at [GET /users] on the group [/v1] of the group [/api]: the root
    records [/api/v1/users] and its GET tree receives that route. *)
Lemma Handle_group_chain_witness :
  let handle := ok_handler "users" in
  let full := chain_path api_groups "/users" in
  let paths := match getOptionalPaths full with [] => [full] | ps => ps end in
  let tree_after := fun k =>
    fold_left (fun n q => (addRoute n q handle).1) (take k paths)
              (default new_node (trees new_router !! "GET")) in
  let outcome := fun k =>
    paths !! k ≫= (fun q => (addRoute (tree_after k) q handle).2) in
  full = "/api/v1/users" /\
  map fst (tree_after (length paths)) = ["/api/v1/users"] /\
  (exists res h' rt0',
     Handle 2 "GET" "/users" handle api_heap = Some (res, h') /\
     h' !! 0%nat = Some rt0' /\
     List rt0' !! "GET" = Some (default [] (List new_router !! "GET") ++ [full])%list /\
     (forall m, m <> "GET" -> trees rt0' !! m = trees new_router !! m) /\
     ((forall k, outcome k = None) ->
        res = Val tt /\ trees rt0' !! "GET" = Some (tree_after (length paths))) /\
     (forall k v, (forall j, (j < k)%nat -> outcome j = None) -> outcome k = Some v ->
        res = Panicked v /\ trees rt0' !! "GET" = Some (tree_after (S k))) /\
     (forall i rt, i <> 0%nat -> api_heap !! i = Some rt ->
        exists rt', h' !! i = Some rt' /\ trees rt' = trees rt)) /\
  (Forall (fun rt => beginPath rt <> "/") api_groups ->
   full = fold_left (fun p g => beginPath g +:+ p) api_groups "/users").
Proof.
  cbn zeta. split; [reflexivity|]. split; [reflexivity|].
  refine (Handle_group_chain 2 api_groups 0 new_router "GET" "/users"
            (ok_handler "users") api_heap api_heap_wf _ eq_refl eq_refl eq_refl _).
  - eapply chain_group; [reflexivity|reflexivity|].
    eapply chain_group; [reflexivity|reflexivity|].
    eapply chain_root; reflexivity.
  - repeat constructor; right; reflexivity.
Defined.

(** C6 as stated fails at the group [/]: its [beginPath] is not put in
    front of the path, and the root records and inserts [/x], not [//x]. *)
Lemma Handle_slash_group_no_prefix :
  let g := default new_router (slash_group_heap !! 1%nat) in
  let h' := heap_after (Handle 1 "GET" "/x" (ok_handler "x") slash_group_heap)
                       slash_group_heap in
  let root' := default new_router (h' !! 0%nat) in
  parent g = Some 0%nat /\ beginPath g = "/" /\
  List root' !! "GET" = Some ["/x"] /\
  map fst (default [] (trees root' !! "GET")) = ["/x"] /\
  ~ (List root' !! "GET" = Some [beginPath g +:+ "/x"]).
Proof.
  cbn zeta. repeat split; try (vm_compute; reflexivity).
  vm_compute. intros Heq. discriminate Heq.
Qed.

(** C1 at [POST /bar] when [/bar/] is registered: the trailing-slash
    redirect of a POST carries 307. *)
Lemma Serve_redirect_code_witness :
  In (EvRedirect TrailingSlash "/bar/" 307)
     (trace (Serve ["GET"; "POST"] foo_bar_router (request "POST" "/bar")).2) /\
  ("POST" = "GET" -> 307 = 301) /\
  ("POST" <> "GET" -> 307 = 307) /\
  StatusCode (Resp (ctx (Serve ["GET"; "POST"] foo_bar_router (request "POST" "/bar")).2)) = 307 /\
  (Serve ["GET"; "POST"] foo_bar_router (request "POST" "/bar")).1 = Val tt.
Proof.
  assert (Hin : In (EvRedirect TrailingSlash "/bar/" 307)
                   (trace (Serve ["GET"; "POST"] foo_bar_router (request "POST" "/bar")).2))
    by (vm_compute; left; reflexivity).
  split; [exact Hin|].
  exact (Serve_redirect_code ["GET"; "POST"] foo_bar_router (request "POST" "/bar")
           TrailingSlash "/bar/" 307 Hin).
Defined.

(** C1 as stated fails at HEAD: the redirect of [HEAD /foo/] to [/foo]
    carries 307, not 301. *)
Lemma HEAD_redirect_is_307 :
  let out := Serve ["HEAD"] head_router (request "HEAD" "/foo/") in
  Method (ctx out.2) = "HEAD" /\
  trace out.2 = [EvRedirect TrailingSlash "/foo" 307] /\
  StatusCode (Resp (ctx out.2)) = 307 /\
  ~ (forall k uri code, In (EvRedirect k uri code) (trace out.2) -> code = 301).
Proof.
  cbn zeta. repeat split; try (vm_compute; reflexivity).
  intros Hall. specialize (Hall TrailingSlash "/foo" 307).
  assert (H307 : 307 = 301) by (apply Hall; vm_compute; left; reflexivity).
  discriminate H307.
Qed.

(** C4 at [CONNECT /foo/] on a router where CONNECT has [/foo]: the
    trailing-slash variant exists, and dispatch does not redirect. *)
Lemma Serve_no_redirect_for_CONNECT_or_root_witness :
  let c := request "CONNECT" "/foo/" in
  (Method c = "CONNECT" \/ Path c = "/") /\
  (getValue (default new_node (trees connect_router !! "CONNECT")) "/foo/").1.2 = true /\
  (forall e, In e (trace (Serve ["CONNECT"] connect_router c).2) -> is_redirect e = false) /\
  exists e rest,
    trace (Serve ["CONNECT"] connect_router c).2 = e :: rest /\
    (e = EvHandle \/ is_fallback e = true) /\
    (rest = [] \/ exists v, rest = [EvPanicHandler v]).
Proof.
  cbn zeta.
  assert (Hc : Method (request "CONNECT" "/foo/") = "CONNECT" \/
               Path (request "CONNECT" "/foo/") = "/") by (left; reflexivity).
  split; [exact Hc|]. split; [vm_compute; reflexivity|].
  exact (Serve_no_redirect_for_CONNECT_or_root ["CONNECT"] connect_router
           (request "CONNECT" "/foo/") Hc).
Defined.

(** C3 at [GET /boom]: the handler panics with ["boom"], the panic
    handler answers 500, and dispatch returns. *)
Lemma Serve_handler_panic_witness :
  let c := request "GET" "/boom" in
  let out := Serve ["GET"] boom_router c in
  out = (Val tt, mkServe (set_Resp (SetStatusCode 500) c)
                         [EvHandle; EvPanicHandler (PanicString "boom")]) /\
  (forall ph, PanicHandler boom_router = Some ph ->
     out = ((ph (PanicString "boom") c).1,
            mkServe (ph (PanicString "boom") c).2
                    [EvHandle; EvPanicHandler (PanicString "boom")]) /\
     length (filter (fun e => is_panic_handler e = true) (trace out.2)) = 1%nat /\
     ((ph (PanicString "boom") c).1 = Val tt -> out.1 = Val tt) /\
     (forall v', (ph (PanicString "boom") c).1 = Panicked v' -> out.1 = Panicked v')) /\
  (PanicHandler boom_router = None -> out = (Panicked (PanicString "boom"), mkServe c [EvHandle])).
Proof.
  cbn zeta. split; [vm_compute; reflexivity|].
  exact (Serve_handler_panic ["GET"] boom_router (request "GET" "/boom")
           [("/boom", panicking_handler "boom")] (panicking_handler "boom") false []
           (PanicString "boom") (request "GET" "/boom")
           eq_refl eq_refl eq_refl).
Defined.

(** C3 as stated fails when the panic handler panics itself: the panic
    of [GET /boom] is recovered, the panic handler runs once, and its own
    panic leaves dispatch. *)
Lemma panic_handler_panic_propagates :
  let out := Serve ["GET"] rethrow_router (request "GET" "/boom") in
  is_Some (PanicHandler rethrow_router) /\
  trace out.2 = [EvHandle; EvPanicHandler (PanicString "boom")] /\
  out.1 = Panicked (PanicString "handler failed") /\
  ~ (out.1 = Val tt).
Proof.
  cbn zeta. split; [vm_compute; eauto|]. split; [vm_compute; reflexivity|].
  split; [vm_compute; reflexivity|]. vm_compute. intros Heq. discriminate Heq.
Qed.

Lemma foo_bar_range_order : range_order (trees foo_bar_router) ["GET"; "POST"].
Proof.
  split; [|vm_compute; reflexivity].
  apply (bool_decide_unpack _). vm_compute. reflexivity.
Qed.



Lemma foo_bar_trees :
  trees foo_bar_router =
    <["POST" := [("/bar/", ok_handler "bar")]]> (<["GET" := [("/foo", ok_handler "foo")]]> ∅).
Proof. vm_compute. reflexivity. Qed.

Lemma foo_trees : trees foo_router = <["GET" := [("/foo", ok_handler "foo")]]> ∅.
Proof. vm_compute. reflexivity. Qed.

Lemma foo_bar_no_match_nope m : matches foo_bar_router "/nope" m = false.
Proof.
  unfold matches. rewrite foo_bar_trees.
  destruct (decide (m = "POST")) as [->|Hp]; [vm_compute; reflexivity|].
  rewrite lookup_insert_ne by done.
  destruct (decide (m = "GET")) as [->|Hg]; [vm_compute; reflexivity|].
  rewrite lookup_insert_ne by done. by rewrite lookup_empty.
Qed.

Lemma foo_no_match_foo_slash m : matches foo_router "/foo/" m = false.
Proof.
  unfold matches. rewrite foo_trees.
  destruct (decide (m = "GET")) as [->|Hg]; [vm_compute; reflexivity|].
  rewrite lookup_insert_ne by done. by rewrite lookup_empty.
Qed.

(** C9 at [GET /nope] where GET has [/foo] and POST has [/bar/]: nothing
    matches, nothing to redirect to, and the response is 404. *)
Lemma Serve_not_found_witness :
  let c := request "GET" "/nope" in
  let out := Serve ["GET"; "POST"] foo_bar_router c in
  out.1 = Val tt /\
  exists c',
    Resp c' = Resp c /\
    (exists rest,
       trace out.2 = EvNotFound (bool_decide (is_Some (NotFound foo_bar_router))) :: rest) /\
    (NotFound foo_bar_router = None ->
       out = (Val tt, mkServe (set_Resp (ctx_Error "Not Found" 404) c') [EvNotFound false]) /\
       StatusCode (Resp (ctx out.2)) = 404) /\
    (forall nf, NotFound foo_bar_router = Some nf ->
       serve ["GET"; "POST"] foo_bar_router (mkServe c []) =
         ((nf c').1, mkServe (nf c').2 [EvNotFound true])).
Proof.
  cbn zeta. split; [vm_compute; reflexivity|].
  refine (Serve_not_found ["GET"; "POST"] foo_bar_router (request "GET" "/nope")
            foo_bar_range_order foo_bar_no_match_nope _ _).
  - intros root Hroot. right. right.
    assert (root = [("/foo", ok_handler "foo")]) as ->.
    { rewrite foo_bar_trees in Hroot. simpl in Hroot.
      rewrite lookup_insert_ne in Hroot by done.
      rewrite lookup_insert_eq in Hroot. congruence. }
    split; [left|right]; vm_compute; reflexivity.
  - intros [Heq|Heq]; discriminate Heq.
Defined.

(** C9 as stated fails at [GET /foo/] where only [GET /foo] is
    registered: no route matches [/foo/] under any method, and dispatch
    answers with a redirect to [/foo], not with Not Found. *)
Lemma Serve_unmatched_path_redirects :
  let out := Serve ["GET"] foo_router (request "GET" "/foo/") in
  (forall m, matches foo_router "/foo/" m = false) /\
  trace out.2 = [EvRedirect TrailingSlash "/foo" 301] /\
  StatusCode (Resp (ctx out.2)) = 301 /\
  ~ (exists custom rest, trace out.2 = EvNotFound custom :: rest) /\
  StatusCode (Resp (ctx out.2)) <> 404.
Proof.
  cbn zeta. split; [exact foo_no_match_foo_slash|].
  split; [vm_compute; reflexivity|]. split; [vm_compute; reflexivity|].
  split.
  - intros (custom & rest & Heq). vm_compute in Heq. discriminate Heq.
  - vm_compute. intros Heq. discriminate Heq.
Qed.

(** C7 on [GET /foo]: [Lookup] finds the handler dispatch invokes. *)
Example Lookup_finds_foo :
  let c := request "GET" "/foo" in
  (Lookup foo_router "GET" "/foo" c).1 = (Some (ok_handler "foo"), false) /\
  (Lookup foo_router "GET" "/foo/" c).1 = (None, true) /\
  (Lookup foo_router "POST" "/foo" c).1 = (None, false) /\
  trace (Serve ["GET"] foo_router c).2 = [EvHandle] /\
  Body (Resp (ctx (Serve ["GET"] foo_router c).2)) = "foo".
Proof. cbn zeta. repeat split; vm_compute; reflexivity. Qed.

(** * More of the router *)

Section Redirects.

Context `{Trie} `{PathUtil}.

Lemma drop_last_snoc (c : ascii) (s : string) :
  s <> EmptyString -> last_is c s = true -> s = drop_last s +:+ String c EmptyString.
Proof.
  induction s as [|a s IH]; intros Hne Hlast; [done|].
  destruct s as [|b s].
  - unfold last_is in Hlast. simpl in Hlast.
    destruct (Ascii.eqb_spec a c) as [->|]; [|done]. reflexivity.
  - assert (Hl : last_is c (String b s) = true).
    { unfold last_is, len in *. simpl String.length in *.
      replace (S (S (String.length s)) - 1)%nat with (S (String.length s)) in Hlast by lia.
      replace (S (String.length s) - 1)%nat with (String.length s) by lia.
      exact Hlast. }
    specialize (IH ltac:(done) Hl).
    unfold drop_last, len in *. simpl String.length in *.
    replace (S (S (String.length s)) - 1)%nat with (S (String.length s)) by lia.
    replace (S (String.length s) - 1)%nat with (String.length s) in IH by lia.
    change (String a (String b s) =
            String a (String.substring 0 (String.length s) (String b s)
                      +:+ String c EmptyString)).
    f_equal. exact IH.
Qed.

Lemma serve_no_handler order r c root tsr ps :
  trees r !! Method c = Some root ->
  getValue root (Path c) = (None, tsr, ps) ->
  serve order r (mkServe c []) =
    (if negb (str_eqb (Method c) "CONNECT") && negb (str_eqb (Path c) "/") then
       let code := redirect_code (Method c) in
       if tsr && RedirectTrailingSlash r then
         let uri := tsr_uri c (Path c) in
         (Val tt, mkServe (ctx_Redirect uri code (SetUserValues ps c))
                          [EvRedirect TrailingSlash uri code])
       else if RedirectFixedPath r then
         match findCaseInsensitivePath root (cleanPath (Path c)) (RedirectTrailingSlash r) with
         | Some fixedPath =>
             let uri := fixed_uri c fixedPath in
             (Val tt, mkServe (ctx_Redirect uri code (SetUserValues ps c))
                              [EvRedirect FixedPath uri code])
         | None => fallbacks order r (Path c) (Method c) (mkServe (SetUserValues ps c) [])
         end
       else fallbacks order r (Path c) (Method c) (mkServe (SetUserValues ps c) [])
     else fallbacks order r (Path c) (Method c) (mkServe (SetUserValues ps c) [])).
Proof.
  intros Hroot Hget. unfold serve. mrun. rewrite Hroot, Hget. mrun.
  destruct (negb (str_eqb (Method c) "CONNECT") && negb (str_eqb (Path c) "/")); [|done].
  destruct (tsr && RedirectTrailingSlash r); [done|].
  destruct (RedirectFixedPath r); [|done].
  by destruct (findCaseInsensitivePath _ _ _).
Qed.

Lemma Serve_of_serve_Val order r c s' :
  serve order r (mkServe c []) = (Val tt, s') -> Serve order r c = (Val tt, s').
Proof.
  intros Hs. pose proof (Serve_run order r c) as Hrun. cbn zeta in Hrun.
  rewrite Hs in Hrun. simpl in Hrun. by destruct (PanicHandler r).
Qed.

Lemma guard_true (method path : string) :
  method <> "CONNECT" -> path <> "/" ->
  negb (str_eqb method "CONNECT") && negb (str_eqb path "/") = true.
Proof.
  intros Hm Hp. unfold str_eqb. by rewrite !bool_decide_eq_false_2.
Qed.

(** The trailing-slash redirect. When the tree of the method has no
    handler for the path but reports the trailing-slash variant, the
    request is neither CONNECT nor for [/], and [RedirectTrailingSlash] is
    set, dispatch answers with a redirect and nothing else: the target is
    the path with its last [/] removed or with one [/] added, followed by
    [?] and the query when the request has one; the response carries it,
    written in full against the URI of the request, in [Location], with
    the redirect status, and no handler runs. *)
Theorem Serve_trailing_slash_redirect order r c root ps :
  trees r !! Method c = Some root ->
  getValue root (Path c) = (None, true, ps) ->
  Method c <> "CONNECT" -> Path c <> "/" ->
  RedirectTrailingSlash r = true ->
  exists target,
    (Path c = target +:+ "/" \/ target = Path c +:+ "/") /\
    let uri := if (0 <? len (QueryString c))%nat
               then target +:+ "?" +:+ QueryArgsString c else target in
    let code := redirect_code (Method c) in
    Serve order r c =
      (Val tt, mkServe (ctx_Redirect uri code (SetUserValues ps c))
                       [EvRedirect TrailingSlash uri code]) /\
    Header (Resp (ctx (Serve order r c).2)) !! "Location" = Some (FullURI c uri) /\
    StatusCode (Resp (ctx (Serve order r c).2)) = code.
Proof.
  intros Hroot Hget Hm Hp Hts.
  pose proof (serve_no_handler order r c root true ps Hroot Hget) as Hs.
  rewrite guard_true, Hts in Hs by done. simpl in Hs.
  apply Serve_of_serve_Val in Hs.
  exists (if (1 <? len (Path c))%nat && last_is "/" (Path c)
          then drop_last (Path c) else Path c +:+ "/").
  split.
  - destruct ((1 <? len (Path c))%nat && last_is "/" (Path c)) eqn:E; [|by right].
    left. apply andb_true_iff in E as [Hlen Hlast].
    apply drop_last_snoc; [|done]. intros Heq. by rewrite Heq in Hlen.
  - cbn zeta. fold (tsr_uri c (Path c)). rewrite Hs. simpl.
    split; [done|]. split; [|done]. by rewrite lookup_insert_eq.
Qed.

(** The fixed-path redirect. It is tried only when the trailing-slash
    redirect is not taken; when [RedirectFixedPath] is set and the
    case-insensitive lookup of the cleaned path finds a path, dispatch
    redirects to that path, followed by [?] and the raw query when the
    request has one, written in full against the URI of the request, and
    runs no handler. *)
Theorem Serve_fixed_path_redirect order r c root tsr ps fixed :
  trees r !! Method c = Some root ->
  getValue root (Path c) = (None, tsr, ps) ->
  Method c <> "CONNECT" -> Path c <> "/" ->
  tsr = false \/ RedirectTrailingSlash r = false ->
  RedirectFixedPath r = true ->
  findCaseInsensitivePath root (cleanPath (Path c)) (RedirectTrailingSlash r) = Some fixed ->
  let uri := if (0 <? len (QueryString c))%nat
             then fixed +:+ "?" +:+ QueryString c else fixed in
  let code := redirect_code (Method c) in
  Serve order r c =
    (Val tt, mkServe (ctx_Redirect uri code (SetUserValues ps c))
                     [EvRedirect FixedPath uri code]) /\
  Header (Resp (ctx (Serve order r c).2)) !! "Location" = Some (FullURI c uri).
Proof.
  intros Hroot Hget Hm Hp Hts Hfp Hfix. cbn zeta.
  pose proof (serve_no_handler order r c root tsr ps Hroot Hget) as Hs.
  rewrite guard_true, Hfp, Hfix in Hs by done.
  assert (tsr && RedirectTrailingSlash r = false) as Hno.
  { destruct Hts as [-> | ->]; [done|apply andb_false_r]. }
  rewrite Hno in Hs. simpl in Hs.
  apply Serve_of_serve_Val in Hs. fold (fixed_uri c fixed).
  rewrite Hs. simpl. split; [done|]. by rewrite lookup_insert_eq.
Qed.

End Redirects.

Section FallbackOutcomes.

Context `{Trie} `{PathUtil}.

Lemma serve_falls_through order r c :
  falls_through r c ->
  serve order r (mkServe c []) =
    fallbacks order r (Path c) (Method c) (mkServe (looked_up r c) []).
Proof.
  unfold falls_through, looked_up. intros Hft.
  destruct (trees r !! Method c) as [root|] eqn:Hroot.
  - destruct (getValue root (Path c)) as [[f tsr] ps] eqn:Hget. simpl in Hft.
    destruct Hft as [-> Hft].
    rewrite (serve_no_handler order r c root tsr ps Hroot Hget). simpl.
    unfold str_eqb.
    destruct (bool_decide_reflect (Method c = "CONNECT")) as [|Hm]; [done|].
    destruct (bool_decide_reflect (Path c = "/")) as [|Hp]; [done|]. simpl.
    destruct Hft as [?|[?|[Hts Hfix]]]; [done|done|].
    assert (tsr && RedirectTrailingSlash r = false) as ->.
    { destruct Hts as [-> | ->]; [done|apply andb_false_r]. }
    destruct Hfix as [-> | ->]; [done|]. by destruct (RedirectFixedPath r).
  - unfold serve. mrun. by rewrite Hroot.
Qed.

Lemma len_pos (a : string) : a <> EmptyString -> (0 <? len a)%nat = true.
Proof. by destruct a. Qed.

(** Method Not Allowed. When a request whose method is not OPTIONS gets
    past its tree and the redirects, [HandleMethodNotAllowed] is set and
    [allowed] lists something, the [Allow] header is set first; then the
    configured handler runs, on a context that carries the header, or
    else the response is 405 with the default content type and the
    standard message. *)
Theorem Serve_method_not_allowed order r c :
  falls_through r c ->
  Method c <> "OPTIONS" ->
  HandleMethodNotAllowed r = true ->
  allowed order r (Path c) (Method c) <> EmptyString ->
  let allow := allowed order r (Path c) (Method c) in
  let c1 := set_Resp (HeaderSet "Allow" allow) (looked_up r c) in
  Header (Resp c1) !! "Allow" = Some allow /\
  (MethodNotAllowed r = None ->
     Serve order r c =
       (Val tt,
        mkServe (set_Resp (fun rs => mkResponse 405 (Header rs) defaultContentType
                                                "Method Not Allowed") c1)
                [EvMethodNotAllowed allow false])) /\
  (forall mna, MethodNotAllowed r = Some mna ->
     serve order r (mkServe c []) =
       ((mna c1).1, mkServe (mna c1).2 [EvMethodNotAllowed allow true])).
Proof.
  intros Hft Hm Hflag Hallow. cbn zeta.
  pose proof (serve_falls_through order r c Hft) as Hs.
  unfold fallbacks in Hs. unfold str_eqb in Hs.
  rewrite bool_decide_eq_false_2, Hflag, len_pos in Hs by done.
  split; [simpl; by rewrite lookup_insert_eq|]. split.
  - intros Hnone. rewrite Hnone in Hs. apply Serve_of_serve_Val. rewrite Hs. by mrun.
  - intros mna Hsome. rewrite Hsome in Hs. rewrite Hs. mrun.
    by destruct (mna _).
Qed.

(** The automatic reply to OPTIONS. When an OPTIONS request gets past
    its tree and the redirects, [HandleOPTIONS] is set and [allowed] lists
    something, dispatch sets the [Allow] header and returns: status,
    content type and body stay as they were, and no handler runs. *)
Theorem Serve_OPTIONS_reply order r c :
  falls_through r c ->
  Method c = "OPTIONS" ->
  HandleOPTIONS r = true ->
  allowed order r (Path c) "OPTIONS" <> EmptyString ->
  let allow := allowed order r (Path c) "OPTIONS" in
  let out := Serve order r c in
  out = (Val tt, mkServe (set_Resp (HeaderSet "Allow" allow) (looked_up r c))
                         [EvOptionsReply allow]) /\
  Header (Resp (ctx out.2)) !! "Allow" = Some allow /\
  StatusCode (Resp (ctx out.2)) = StatusCode (Resp c) /\
  Body (Resp (ctx out.2)) = Body (Resp c).
Proof.
  intros Hft Hm Hflag Hallow. cbn zeta.
  pose proof (serve_falls_through order r c Hft) as Hs.
  unfold fallbacks in Hs. unfold str_eqb in Hs. rewrite Hm in Hs.
  rewrite bool_decide_eq_true_2, Hflag, len_pos in Hs by done.
  assert (HS : Serve order r c =
            (Val tt, mkServe (set_Resp (HeaderSet "Allow" (allowed order r (Path c) "OPTIONS"))
                                       (looked_up r c))
                             [EvOptionsReply (allowed order r (Path c) "OPTIONS")])).
  { apply Serve_of_serve_Val. rewrite Hs. by mrun. }
  rewrite HS. split; [done|]. simpl. split; [by rewrite lookup_insert_eq|].
  unfold looked_up. destruct (trees r !! Method c); done.
Qed.

Lemma fallbacks_kind order r path method s :
  exists e,
    trace (fallbacks order r path method s).2 = (trace s ++ [e])%list /\
    kind_of_event e =
      (if str_eqb method "OPTIONS" then
         if HandleOPTIONS r && (0 <? len (allowed order r path method))%nat
         then KOptionsReply else KNotFound
       else
         if HandleMethodNotAllowed r && (0 <? len (allowed order r path method))%nat
         then KMethodNotAllowed else KNotFound).
Proof.
  unfold fallbacks.
  destruct (str_eqb method "OPTIONS").
  - destruct (HandleOPTIONS r); simpl;
      [|eexists; split; [apply handle404_trace|done]].
    destruct (0 <? len _)%nat;
      [|eexists; split; [apply handle404_trace|done]].
    mrun. eexists. split; [reflexivity|done].
  - destruct (HandleMethodNotAllowed r); simpl;
      [|eexists; split; [apply handle404_trace|done]].
    destruct (0 <? len _)%nat;
      [|eexists; split; [apply handle404_trace|done]].
    destruct (MethodNotAllowed r) as [mna|]; mrun.
    + destruct (mna _). simpl. eexists. split; [reflexivity|done].
    + eexists. split; [reflexivity|done].
Qed.

(** What each action of dispatch presupposes. *)
Lemma serve_event_conditions order r c e :
  In e (trace (serve order r (mkServe c [])).2) ->
  match kind_of_event e with
  | KHandle => matches r (Path c) (Method c) = true
  | KRedirect TrailingSlash =>
      RedirectTrailingSlash r = true /\ Method c <> "CONNECT" /\ Path c <> "/"
  | KRedirect FixedPath =>
      RedirectFixedPath r = true /\ Method c <> "CONNECT" /\ Path c <> "/"
  | KOptionsReply => HandleOPTIONS r = true /\ Method c = "OPTIONS"
  | KMethodNotAllowed => HandleMethodNotAllowed r = true /\ Method c <> "OPTIONS"
  | KNotFound => True
  | KPanicHandler => False
  end.
Proof.
  assert (Hfb : forall s, trace s = [] ->
            In e (trace (fallbacks order r (Path c) (Method c) s).2) ->
            match kind_of_event e with
            | KHandle => matches r (Path c) (Method c) = true
            | KRedirect TrailingSlash =>
                RedirectTrailingSlash r = true /\ Method c <> "CONNECT" /\ Path c <> "/"
            | KRedirect FixedPath =>
                RedirectFixedPath r = true /\ Method c <> "CONNECT" /\ Path c <> "/"
            | KOptionsReply => HandleOPTIONS r = true /\ Method c = "OPTIONS"
            | KMethodNotAllowed => HandleMethodNotAllowed r = true /\ Method c <> "OPTIONS"
            | KNotFound => True
            | KPanicHandler => False
            end).
  { intros s Hs Hin.
    destruct (fallbacks_kind order r (Path c) (Method c) s) as (e' & Ht & Hk).
    rewrite Ht, Hs in Hin. destruct Hin as [<-|[]]. rewrite Hk. unfold str_eqb.
    destruct (bool_decide_reflect (Method c = "OPTIONS")).
    - destruct (HandleOPTIONS r); simpl; [|done]. by destruct (0 <? _)%nat.
    - destruct (HandleMethodNotAllowed r); simpl; [|done]. by destruct (0 <? _)%nat. }
  destruct (trees r !! Method c) as [root|] eqn:Hroot.
  - destruct (getValue root (Path c)) as [[[f|] tsr] ps] eqn:Hget.
    + unfold serve. mrun. rewrite Hroot, Hget. mrun. destruct (f _). simpl.
      intros [<-|[]]. simpl. unfold matches. by rewrite Hroot, Hget.
    + rewrite (serve_no_handler order r c root tsr ps Hroot Hget). unfold str_eqb.
      destruct (bool_decide_reflect (Method c = "CONNECT")) as [|Hm]; [by apply Hfb|].
      destruct (bool_decide_reflect (Path c = "/")) as [|Hp]; [by apply Hfb|]. simpl.
      destruct tsr, (RedirectTrailingSlash r) eqn:Hts; simpl;
        try (by intros [<-|[]]);
        (destruct (RedirectFixedPath r) eqn:Hfp; [|by apply Hfb];
         destruct (findCaseInsensitivePath _ _ _); [|by apply Hfb];
         by intros [<-|[]]).
  - unfold serve. mrun. rewrite Hroot. by apply Hfb.
Qed.

(** What dispatch never does. A trailing-slash redirect needs
    [RedirectTrailingSlash], a fixed-path redirect [RedirectFixedPath],
    and either a method other than CONNECT and a path other than [/]; an
    automatic OPTIONS reply needs [HandleOPTIONS] and the method OPTIONS;
    a 405 needs [HandleMethodNotAllowed] and a method other than OPTIONS;
    the matched handler runs only on an exact match; and the panic
    handler runs only when one is set. *)
Theorem Serve_action_needs order r c e :
  In e (trace (Serve order r c).2) ->
  match kind_of_event e with
  | KHandle => matches r (Path c) (Method c) = true
  | KRedirect TrailingSlash =>
      RedirectTrailingSlash r = true /\ Method c <> "CONNECT" /\ Path c <> "/"
  | KRedirect FixedPath =>
      RedirectFixedPath r = true /\ Method c <> "CONNECT" /\ Path c <> "/"
  | KOptionsReply => HandleOPTIONS r = true /\ Method c = "OPTIONS"
  | KMethodNotAllowed => HandleMethodNotAllowed r = true /\ Method c <> "OPTIONS"
  | KNotFound => True
  | KPanicHandler => is_Some (PanicHandler r)
  end.
Proof.
  intros Hin.
  pose proof (Serve_run order r c) as Hrun. cbn zeta in Hrun.
  pose proof (serve_event_conditions order r c e) as Hc.
  destruct (serve order r (mkServe c [])) as [res s'] eqn:Hs. simpl in *.
  assert (Hold : In e (trace s') ->
            match kind_of_event e with
            | KHandle => matches r (Path c) (Method c) = true
            | KRedirect TrailingSlash =>
                RedirectTrailingSlash r = true /\ Method c <> "CONNECT" /\ Path c <> "/"
            | KRedirect FixedPath =>
                RedirectFixedPath r = true /\ Method c <> "CONNECT" /\ Path c <> "/"
            | KOptionsReply => HandleOPTIONS r = true /\ Method c = "OPTIONS"
            | KMethodNotAllowed => HandleMethodNotAllowed r = true /\ Method c <> "OPTIONS"
            | KNotFound => True
            | KPanicHandler => is_Some (PanicHandler r)
            end).
  { intros Hin'. specialize (Hc Hin'). destruct (kind_of_event e); done. }
  destruct (PanicHandler r) as [ph|] eqn:Hph.
  - destruct res as [[]|v].
    + rewrite Hrun in Hin. by apply Hold.
    + rewrite Hrun, recv_run in Hin. simpl in Hin.
      apply in_app_or in Hin as [Hin|[<-|[]]]; [by apply Hold|]. simpl. eauto.
  - rewrite Hrun in Hin. by apply Hold.
Qed.











End FallbackOutcomes.

Section RegistrationFrame.

Context `{Trie} `{PathUtil}.

Lemma same_but_method_refl method rt : same_but_method method rt rt.
Proof.
  unfold same_but_method. repeat split; try done.
  exists []. by rewrite app_nil_r.
Qed.

Lemma same_but_method_trans method a b c :
  same_but_method method a b -> same_but_method method b c -> same_but_method method a c.
Proof.
  intros (A1 & A2 & A3 & A4 & A5 & A6 & A7 & A8 & A9 & A10 & [x Ax])
         (B1 & B2 & B3 & B4 & B5 & B6 & B7 & B8 & B9 & B10 & [y By]).
  unfold same_but_method.
  repeat split; try congruence.
  - destruct (B10 m) as [-> _]; [done|]. by destruct (A10 m) as [-> _].
  - destruct (B10 m) as [_ ->]; [done|]. by destruct (A10 m) as [_ ->].
  - exists (x ++ y)%list. by rewrite By, Ax, app_assoc.
Qed.

Lemma same_but_method_record method path rt :
  same_but_method method rt (record_path method path rt).
Proof.
  unfold same_but_method, record_path. simpl. repeat split; try done.
  - by rewrite lookup_insert_ne.
  - exists [path]. by rewrite lookup_insert_eq.
Qed.

Lemma same_but_method_set_trees method t rt :
  same_but_method method rt (set_trees (<[method := t]> (trees rt)) rt).
Proof.
  unfold same_but_method. simpl. repeat split; try done.
  - by rewrite lookup_insert_ne.
  - exists []. by rewrite app_nil_r.
Qed.

Lemma Handle_fuel_frame fuel :
  forall r method path handle (h : list Router) res h',
  Handle_fuel fuel r method path handle h = Some (res, h') ->
  forall i rt, h !! i = Some rt ->
    exists rt', h' !! i = Some rt' /\ same_but_method method rt rt'.
Proof.
  induction fuel as [|fuel IH]; intros r method path handle h res h' Hrun i rt Hi; [done|].
  simpl in Hrun.
  destruct (String.get 0 path) as [c|];
    [|injection Hrun as <- <-; eauto using same_but_method_refl].
  destruct (negb (Ascii.eqb c "/"));
    [injection Hrun as <- <-; eauto using same_but_method_refl|].
  destruct (h !! r) as [rr|] eqn:Hr;
    [|injection Hrun as <- <-; eauto using same_but_method_refl].
  simpl in Hrun.
  set (rt1 := record_path method (prefixed rr path) rr) in *.
  assert (Hstep : exists x, (<[r := rt1]> h) !! i = Some x /\ same_but_method method rt x).
  { destruct (decide (i = r)) as [->|Hne].
    - exists rt1. split; [apply list_lookup_insert_eq; by eapply lookup_lt_Some|].
      assert (rt = rr) as -> by congruence. apply same_but_method_record.
    - exists rt. split; [by rewrite list_lookup_insert_ne|apply same_but_method_refl]. }
  destruct Hstep as (x & Hx & Hsame).
  destruct (parent rr) as [p|] eqn:Hp.
  - destruct (IH _ _ _ _ _ _ _ Hrun i x Hx) as (rt' & Hrt' & Hsame').
    exists rt'. split; [done|]. by eapply same_but_method_trans.
  - destruct (insertRoutes _ _ _) as [root' o].
    assert (Hh' : h' = <[r := set_trees (<[method := root']> (trees rt1)) rt1]> (<[r := rt1]> h)).
    { by destruct o; injection Hrun as <- <-. }
    subst h'. destruct (decide (i = r)) as [->|Hne].
    + eexists. split; [apply list_lookup_insert_eq; rewrite length_insert; by eapply lookup_lt_Some|].
      rewrite list_lookup_insert_eq in Hx by (by eapply lookup_lt_Some).
      injection Hx as <-.
      eapply same_but_method_trans; [exact Hsame|apply same_but_method_set_trees].
    + exists x. split; [by rewrite list_lookup_insert_ne|done].
Qed.

(** A registration touches one method. Whatever router [Handle] is
    called on and however it ends, every router of the heap keeps its
    parent, its prefix, its flags and its handlers, the trees and the
    registered paths of every other method, and the paths it had for the
    method; so [Lookup] for another method answers as before. *)
Theorem Handle_touches_one_method r method path handle (h : heap) res h' :
  Handle r method path handle h = Some (res, h') ->
  forall i rt, h !! i = Some rt ->
    exists rt',
      h' !! i = Some rt' /\
      same_but_method method rt rt' /\
      (forall m p c, m <> method -> Lookup rt' m p c = Lookup rt m p c).
Proof.
  intros Hrun i rt Hi.
  destruct (Handle_fuel_frame _ _ _ _ _ _ _ _ Hrun i rt Hi) as (rt' & Hrt' & Hsame).
  exists rt'. split; [done|]. split; [done|].
  intros m p c Hm. unfold Lookup.
  destruct Hsame as (_ & _ & _ & _ & _ & _ & _ & _ & _ & Hother & _).
  by destruct (Hother m Hm) as [-> _].
Qed.

Lemma groups_own_no_tree_insert (h : list Router) i rt rt' :
  groups_own_no_tree h -> h !! i = Some rt ->
  (is_Some (parent rt') -> is_Some (parent rt) /\ trees rt' = trees rt) ->
  groups_own_no_tree (<[i := rt']> h).
Proof.
  intros Hinv Hi Hrt' j rj Hj Hp.
  destruct (decide (i = j)) as [->|Hne].
  - rewrite list_lookup_insert_eq in Hj by (by eapply lookup_lt_Some).
    injection Hj as <-. destruct (Hrt' Hp) as [Hp' ->]. by eapply Hinv.
  - rewrite list_lookup_insert_ne in Hj by done. by eapply Hinv.
Qed.

Lemma Handle_fuel_treeless fuel :
  forall r method path handle (h : list Router) res h',
  groups_own_no_tree h ->
  Handle_fuel fuel r method path handle h = Some (res, h') ->
  groups_own_no_tree h'.
Proof.
  induction fuel as [|fuel IH]; intros r method path handle h res h' Hinv Hrun; [done|].
  simpl in Hrun.
  destruct (String.get 0 path) as [c|]; [|by injection Hrun as <- <-].
  destruct (negb (Ascii.eqb c "/")); [by injection Hrun as <- <-|].
  destruct (h !! r) as [rr|] eqn:Hr; [|by injection Hrun as <- <-].
  simpl in Hrun.
  set (rt1 := record_path method (prefixed rr path) rr) in *.
  assert (Hinv1 : groups_own_no_tree (<[r := rt1]> h)).
  { eapply groups_own_no_tree_insert; [done|done|]. by intros Hp. }
  destruct (parent rr) as [p|] eqn:Hp.
  - by eapply IH.
  - destruct (insertRoutes _ _ _) as [root' o].
    assert (Hh' : h' = <[r := set_trees (<[method := root']> (trees rt1)) rt1]> (<[r := rt1]> h)).
    { by destruct o; injection Hrun as <- <-. }
    subst h'. rewrite list_insert_insert_eq.
    intros j rj Hj Hpj. destruct (decide (r = j)) as [->|Hne].
    + rewrite list_lookup_insert_eq in Hj by (by eapply lookup_lt_Some).
      injection Hj as <-. simpl in Hpj. rewrite Hp in Hpj. by destruct Hpj.
    + rewrite list_lookup_insert_ne in Hj by done. by eapply Hinv.
Qed.

Lemma groups_own_no_tree_snoc (h : list Router) rt :
  groups_own_no_tree h -> (is_Some (parent rt) -> trees rt = ∅) ->
  groups_own_no_tree (h ++ [rt]).
Proof.
  intros Hinv Hrt i ri Hi Hp.
  destruct (decide (i < length h)%nat) as [Hlt|Hge].
  - rewrite lookup_app_l in Hi by done. by eapply Hinv.
  - rewrite lookup_app_r in Hi by lia.
    destruct (i - length h)%nat; simpl in Hi; [|by rewrite lookup_nil in Hi].
    injection Hi as <-. by apply Hrt.
Qed.

Lemma groups_own_no_tree_nil : groups_own_no_tree [].
Proof. intros i rt Hi. by rewrite lookup_nil in Hi. Qed.

Lemma groups_own_no_tree_New h : groups_own_no_tree h -> groups_own_no_tree (New h).2.
Proof. intros Hinv. apply groups_own_no_tree_snoc; [done|]. simpl. by intros [? ?]. Qed.

Lemma groups_own_no_tree_Group h r path :
  groups_own_no_tree h -> groups_own_no_tree (Group r path h).2.
Proof. intros Hinv. by apply groups_own_no_tree_snoc. Qed.

(** Groups own no tree. The empty heap has no router with a parent and
    a tree, and [New], [Group] and [Handle] (however it ends) keep it so:
    in every heap the API builds, only routers without a parent have
    trees. *)
Theorem groups_own_no_tree_kept :
  groups_own_no_tree [] /\
  (forall h, groups_own_no_tree h -> groups_own_no_tree (New h).2) /\
  (forall h r path, groups_own_no_tree h -> groups_own_no_tree (Group r path h).2) /\
  (forall r method path handle (h : heap) res h',
     groups_own_no_tree h ->
     Handle r method path handle h = Some (res, h') ->
     groups_own_no_tree h').
Proof.
  split; [apply groups_own_no_tree_nil|].
  split; [apply groups_own_no_tree_New|].
  split; [apply groups_own_no_tree_Group|].
  intros r method path handle h res h' Hinv Hrun. by eapply Handle_fuel_treeless.
Qed.

(** A group whose prefix does not start with [/]. The group itself
    accepts the registration and records the prefixed path; the panic
    comes from the parent, which finds the path without its leading [/],
    and the entry the group recorded stays. *)
Theorem Handle_bad_group_prefix g rt p method path handle (h : heap) c :
  h !! g = Some rt ->
  parent rt = Some p ->
  (p < g)%nat ->
  String.get 0 path = Some "/"%char ->
  String.get 0 (beginPath rt) = Some c ->
  c <> "/"%char ->
  Handle g method path handle h =
    Some (Panicked (PanicString ("path must begin with '/' in path '"
                                 +:+ (beginPath rt +:+ path) +:+ "'")),
          <[g := record_path method (beginPath rt +:+ path) rt]> h).
Proof.
  intros Hg Hp Hlt Hpath Hb Hc. unfold Handle.
  destruct g as [|g]; [lia|].
  cbn [Handle_fuel]. rewrite Hpath. simpl negb. cbv iota. rewrite Hg.
  assert (Hpre : prefixed rt path = beginPath rt +:+ path).
  { unfold prefixed, str_eqb. rewrite bool_decide_eq_false_2; [done|].
    intros Heq. rewrite Heq in Hb. simpl in Hb. congruence. }
  cbn zeta. rewrite Hpre. simpl parent. rewrite Hp.
  assert (Hget : String.get 0 (beginPath rt +:+ path) = Some c).
  { destruct (beginPath rt) as [|b s]; [done|]. exact Hb. }
  simpl. rewrite Hget.
  destruct (Ascii.eqb_spec c "/"); [done|]. reflexivity.
Qed.

End RegistrationFrame.

Section FileRoutes.

Context `{Trie} `{PathUtil} `{FileServer}.

Lemma len_append (a b : string) : len (a +:+ b) = (len a + len b)%nat.
Proof.
  unfold len. induction a as [|x a IH]; [reflexivity|].
  change (S (String.length (a +:+ b)) = S (String.length a + String.length b)).
  by rewrite IH.
Qed.

Lemma substring_suffix_append (b p : string) (n : nat) :
  (n <= len p)%nat ->
  String.substring (len (b +:+ p) - n) n (b +:+ p) = String.substring (len p - n) n p.
Proof.
  intros Hn. induction b as [|x b IH]; [reflexivity|].
  assert (Hlen : (n <= len (b +:+ p))%nat) by (rewrite len_append; lia).
  change (len (String x b +:+ p)) with (S (len (b +:+ p))).
  replace (S (len (b +:+ p)) - n)%nat with (S (len (b +:+ p) - n)) by lia.
  change (String x b +:+ p) with (String x (b +:+ p)). simpl. exact IH.
Qed.

Lemma not_filepath_false path :
  not_filepath path = false <->
  (10 <= len path)%nat /\ String.substring (len path - 10) 10 path = "/*filepath".
Proof.
  unfold not_filepath, str_eqb.
  rewrite orb_false_iff, negb_false_iff, bool_decide_eq_true, Nat.ltb_ge. done.
Qed.

(** A prefix in front keeps the ending [/*filepath]. *)
Lemma not_filepath_prefixed rt path :
  not_filepath path = false -> not_filepath (prefixed rt path) = false.
Proof.
  intros Hp. unfold prefixed. destruct (negb _); [|done].
  apply not_filepath_false in Hp as [Hlen Hsuf]. apply not_filepath_false.
  split; [rewrite len_append; lia|]. by rewrite substring_suffix_append.
Qed.

Lemma ServeFiles_fuel_chain rootPath (h : list Router) g gs root :
  chain h g gs root ->
  forall fuel path rt0,
  heap_wf h ->
  (g < fuel)%nat ->
  h !! root = Some rt0 ->
  not_filepath path = false ->
  let full := prefixed rt0 (chain_path gs path) in
  ServeFiles_fuel fuel g path rootPath h =
    Handle root "GET" full (FSHandler rootPath (count_slash (files_prefix full))) h.
Proof.
  induction 1 as [r rt Hr Hp | g rt p gs root Hg Hp Hc IH];
    intros fuel path rt0 Hwf Hfuel Hroot Hok; (destruct fuel as [|fuel]; [lia|]);
    cbn zeta; simpl; rewrite Hok.
  - rewrite Hr. assert (rt0 = rt) as -> by congruence. rewrite Hp. reflexivity.
  - rewrite Hg, Hp. specialize (Hwf _ _ _ Hg Hp) as Hlt.
    rewrite (IH fuel (prefixed rt path) rt0); try done; [lia|].
    by apply not_filepath_prefixed.
Qed.

(** [ServeFiles] through groups. With a path that ends in [/*filepath],
    a call on the innermost group of a chain is the registration, on the
    root, of GET for the prefixed path with the file handler of
    [rootPath] that strips as many segments as the prefix has [/]. No
    group records the path: unlike [Handle], the call leaves every router
    but the root as it was. *)
Theorem ServeFiles_registers_on_root rootPath (h : heap) g gs root rt0 path :
  heap_wf h ->
  chain h g gs root ->
  h !! root = Some rt0 ->
  not_filepath path = false ->
  let full := prefixed rt0 (chain_path gs path) in
  ServeFiles g path rootPath h =
    Handle root "GET" full (FSHandler rootPath (count_slash (files_prefix full))) h /\
  forall res h', ServeFiles g path rootPath h = Some (res, h') ->
    forall i, i <> root -> h' !! i = h !! i.
Proof.
  intros Hwf Hc Hroot Hok. cbn zeta.
  assert (Hrun : ServeFiles g path rootPath h =
            Handle root "GET" (prefixed rt0 (chain_path gs path))
              (FSHandler rootPath
                 (count_slash (files_prefix (prefixed rt0 (chain_path gs path))))) h).
  { unfold ServeFiles.
    exact (ServeFiles_fuel_chain rootPath h g gs root Hc (S g) path rt0 Hwf
             (Nat.lt_succ_diag_r g) Hroot Hok). }
  split; [done|]. intros res h' Hres i Hi. rewrite Hrun in Hres.
  assert (Hpar : parent rt0 = None).
  { clear -Hc Hroot. induction Hc; [congruence|auto]. }
  unfold Handle in Hres. simpl in Hres.
  destruct (String.get 0 _) as [c|]; [|by injection Hres as <- <-].
  destruct (negb (Ascii.eqb c "/")); [by injection Hres as <- <-|].
  rewrite Hroot in Hres. simpl in Hres. rewrite Hpar in Hres.
  destruct (insertRoutes _ _ _) as [root' o].
  assert (h' = <[root := set_trees (<["GET" := root']>
                   (trees (record_path "GET" (prefixed rt0 (prefixed rt0 (chain_path gs path))) rt0)))
                   (record_path "GET" (prefixed rt0 (prefixed rt0 (chain_path gs path))) rt0)]>
                (<[root := record_path "GET" (prefixed rt0 (prefixed rt0 (chain_path gs path))) rt0]> h))
    as -> by (by destruct o; injection Hres as <- <-).
  by rewrite !list_lookup_insert_ne.
Qed.

(** A path that does not end in [/*filepath] (or is shorter than that)
    makes [ServeFiles] and [ServeFilesCustom] panic with the message that
    names the path, before the router is read: the heap, and the file
    system settings, are left as they were. *)
Theorem ServeFiles_rejects_path r path rootPath fs (h : heap) :
  not_filepath path = true ->
  ServeFiles r path rootPath h = Some (Panicked (filepath_panic path), h) /\
  ServeFilesCustom r path fs h = Some (Panicked (filepath_panic path), (fs, h)).
Proof.
  intros Hbad. unfold ServeFiles, ServeFilesCustom. simpl. by rewrite Hbad.
Qed.

Lemma ServeFilesCustom_fuel_chain fs (h : list Router) g gs root :
  chain h g gs root ->
  forall fuel path rt0,
  heap_wf h ->
  (g < fuel)%nat ->
  h !! root = Some rt0 ->
  not_filepath path = false ->
  let full := prefixed rt0 (chain_path gs path) in
  let n := count_slash (files_prefix full) in
  let fs' := match PathRewrite fs with
             | None => if (0 <? n)%nat
                       then mkFS (Some (NewPathSlashesStripper n)) (fs_fields fs) else fs
             | Some _ => fs
             end in
  ServeFilesCustom_fuel fuel g path fs h =
    match Handle root "GET" full (NewRequestHandler (fs_fields fs') (PathRewrite fs')) h with
    | Some (res, h') => Some (res, (fs', h'))
    | None => None
    end.
Proof.
  induction 1 as [r rt Hr Hp | g rt p gs root Hg Hp Hc IH];
    intros fuel path rt0 Hwf Hfuel Hroot Hok; (destruct fuel as [|fuel]; [lia|]);
    cbn zeta; simpl; rewrite Hok.
  - rewrite Hr. assert (rt0 = rt) as -> by congruence. rewrite Hp. reflexivity.
  - rewrite Hg, Hp. specialize (Hwf _ _ _ Hg Hp) as Hlt.
    rewrite (IH fuel (prefixed rt path) rt0); try done; [lia|].
    by apply not_filepath_prefixed.
Qed.

(** [ServeFilesCustom] and the path rewriter. A rewriter the caller has
    set is kept; without one, the slash stripper for the number of [/]
    in the prefix is installed, but only when that number is positive;
    the handler built from these settings is registered for GET on the
    root, under the prefixed path. *)
Theorem ServeFilesCustom_path_rewrite fs (h : heap) g gs root rt0 path :
  heap_wf h ->
  chain h g gs root ->
  h !! root = Some rt0 ->
  not_filepath path = false ->
  let full := prefixed rt0 (chain_path gs path) in
  let n := count_slash (files_prefix full) in
  exists fs',
    fs_fields fs' = fs_fields fs /\
    (forall f, PathRewrite fs = Some f -> PathRewrite fs' = Some f) /\
    (PathRewrite fs = None ->
     PathRewrite fs' = if (0 <? n)%nat then Some (NewPathSlashesStripper n) else None) /\
    ServeFilesCustom g path fs h =
      match Handle root "GET" full (NewRequestHandler (fs_fields fs') (PathRewrite fs')) h with
      | Some (res, h') => Some (res, (fs', h'))
      | None => None
      end.
Proof.
  intros Hwf Hc Hroot Hok. cbn zeta.
  eexists. split; [|split; [|split]]; cycle 3.
  - unfold ServeFilesCustom.
    exact (ServeFilesCustom_fuel_chain fs h g gs root Hc (S g) path rt0 Hwf
             (Nat.lt_succ_diag_r g) Hroot Hok).
  - destruct (PathRewrite fs); [done|]. by destruct (0 <? _)%nat.
  - intros f Hf. by rewrite Hf.
  - intros Hnone. rewrite Hnone. by destruct (0 <? _)%nat; simpl.
Qed.

End FileRoutes.

Section MiddlewareProperties.

Context `{Trie} `{PathUtil} `{Histogram}.

Lemma Lookup_handler r method path c :
  is_Some (Lookup r method path c).1.1 <-> matches r path method = true.
Proof.
  unfold Lookup, matches. destruct (trees r !! method) as [root|].
  - destruct (getValue root path) as [[f tsr] ps]. simpl.
    by rewrite bool_decide_eq_true.
  - simpl. split; [by intros [? ?]|done].
Qed.

Lemma Lookup_keeps_request r method path c :
  Resp (Lookup r method path c).2 = Resp c /\
  Method (Lookup r method path c).2 = Method c /\
  Path (Lookup r method path c).2 = Path c.
Proof.
  unfold Lookup. destruct (trees r !! method) as [root|]; [|done].
  by destruct (getValue root path) as [[f tsr] ps].
Qed.

Lemma last_filter_cons (P : string -> bool) v paths (uri : string) :
  default uri (last (List.filter P (v :: paths))) =
  default (if P v then v else uri) (last (List.filter P paths)).
Proof.
  simpl. destruct (P v); [|done].
  destruct (List.filter P paths) as [|x l] eqn:E; [done|].
  rewrite last_cons. by destruct (last (x :: l)) eqn:E'.
Qed.

Lemma resolve_uri_spec r method paths uri c :
  (resolve_uri r method paths uri c).1 =
    default uri (last (List.filter (fun v => matches r v method) paths)) /\
  Resp (resolve_uri r method paths uri c).2 = Resp c /\
  Method (resolve_uri r method paths uri c).2 = Method c /\
  Path (resolve_uri r method paths uri c).2 = Path c.
Proof.
  unfold resolve_uri. revert uri c.
  induction paths as [|v paths IH]; intros uri c; [done|].
  rewrite last_filter_cons. cbn [fold_left].
  pose proof (Lookup_handler r method v c) as Hh.
  pose proof (Lookup_keeps_request r method v c) as (Hr & Hm & Hp).
  destruct (Lookup r method v c) as [[handler tsr] c'] eqn:HL. simpl in *.
  destruct handler as [f|].
  - assert (matches r v method = true) as -> by (apply Hh; eauto).
    destruct (IH v c') as (-> & -> & -> & ->). done.
  - assert (matches r v method = false) as ->.
    { destruct (matches r v method); [|done]. destruct Hh as [_ Hh].
      by destruct (Hh eq_refl). }
    destruct (IH uri c') as (-> & -> & -> & ->). done.
Qed.

(** The label loop. The path it settles on is the last registered path
    of the method that finds a handler when it is itself looked up as a
    request path, and the path it started from when there is none; the
    lookups leave the response, the method and the path of the context
    as they were. *)
Theorem resolve_uri_last_self_match r method paths uri c :
  (resolve_uri r method paths uri c).1 =
    default uri (last (List.filter (fun v => matches r v method) paths)) /\
  Resp (resolve_uri r method paths uri c).2 = Resp c /\
  Method (resolve_uri r method paths uri c).2 = Method c /\
  Path (resolve_uri r method paths uri c).2 = Path c.
Proof. apply resolve_uri_spec. Qed.

(** A request for the metrics path is passed to the router and left out
    of the histogram: nothing is observed and nothing is logged. *)
Theorem HandlerFunc_skips_metrics_path order p (h : heap) l r elapsed s :
  p_router p = Some l ->
  h !! l = Some r ->
  Path (ctx (served s)) = MetricsPath p ->
  let out := HandlerFunc order p h elapsed s in
  out.1 = (Handler order r (served s)).1 /\
  served out.2 = (Handler order r (served s)).2 /\
  observed out.2 = observed s /\
  logged out.2 = logged s.
Proof.
  intros Hp Hl Hpath. cbn zeta. unfold HandlerFunc. rewrite Hp. simpl. rewrite Hl.
  unfold str_eqb. rewrite bool_decide_eq_true_2 by done.
  unfold mw_Handler. by destruct (Handler order r (served s)).
Qed.

(** One request, one observation. For any other path, when the router
    returns, the middleware observes the elapsed time once, under the
    status code of the response and the label [METHOD_uri], where [uri]
    is the last registered path of the method that finds a handler when
    looked up as a path, and the path of the request only when there is
    none: the label does not follow the path that was requested. The
    response is what the router left. When the router panics, the panic
    leaves the middleware and nothing is observed. *)
Theorem HandlerFunc_observes order p (h : heap) l r elapsed s :
  p_router p = Some l ->
  h !! l = Some r ->
  Path (ctx (served s)) <> MetricsPath p ->
  let run := Handler order r (served s) in
  let c := ctx run.2 in
  let status := Itoa (StatusCode (Resp c)) in
  let uri := default (Path (ctx (served s)))
               (last (List.filter (fun v => matches r v (Method c))
                                  (default [] (List r !! Method c)))) in
  let ep := Method c +:+ "_" +:+ uri in
  let out := HandlerFunc order p h elapsed s in
  (run.1 = Val tt -> label_error status ep = None ->
     out.1 = Val tt /\
     observed out.2 = (observed s ++ [(status, ep, elapsed)])%list /\
     Resp (ctx (served out.2)) = Resp c /\
     trace (served out.2) = trace run.2) /\
  (run.1 = Val tt -> is_Some (label_error status ep) ->
     out.1 = Val tt /\ observed out.2 = observed s) /\
  (forall v, run.1 = Panicked v ->
     out.1 = Panicked v /\ observed out.2 = observed s /\ logged out.2 = logged s).
Proof.
  intros Hp Hl Hpath. cbn zeta. unfold HandlerFunc. rewrite Hp. simpl. rewrite Hl.
  unfold str_eqb. rewrite bool_decide_eq_false_2 by done.
  unfold mw_Handler. destruct (Handler order r (served s)) as [res s'] eqn:Hrun. simpl.
  assert (Hres : forall uri0,
            (match List r !! Method (ctx s') with
             | Some paths => resolve_uri r (Method (ctx s')) paths uri0 (ctx s')
             | None => (uri0, ctx s')
             end).1 =
            default uri0 (last (List.filter (fun v => matches r v (Method (ctx s')))
                                            (default [] (List r !! Method (ctx s'))))) /\
            Resp (match List r !! Method (ctx s') with
                  | Some paths => resolve_uri r (Method (ctx s')) paths uri0 (ctx s')
                  | None => (uri0, ctx s')
                  end).2 = Resp (ctx s') /\
            Method (match List r !! Method (ctx s') with
                    | Some paths => resolve_uri r (Method (ctx s')) paths uri0 (ctx s')
                    | None => (uri0, ctx s')
                    end).2 = Method (ctx s')).
  { intros uri0. destruct (List r !! Method (ctx s')) as [paths|]; [|done].
    destruct (resolve_uri_spec r (Method (ctx s')) paths uri0 (ctx s'))
      as (? & ? & ? & ?). done. }
  specialize (Hres (Path (ctx (served s)))).
  destruct (match List r !! Method (ctx s') with
            | Some paths => _
            | None => _
            end) as [uri c'] eqn:Hloop.
  simpl in Hres. destruct Hres as (-> & Hresp & Hmeth).
  split; [|split].
  - intros -> Hok. rewrite Hmeth, Hok. simpl. done.
  - intros -> [err Herr]. rewrite Hmeth, Herr. simpl. done.
  - intros v ->. done.
Qed.

End MiddlewareProperties.

(** * More of the router, on concrete requests *)

(** [GET /foo/?a=1] where only [/foo] is registered: redirect to
    [/foo?a=1] with 301. *)
Lemma Serve_trailing_slash_redirect_witness :
  let c := request_with_query "GET" "/foo/" "a=1" in
  Header (Resp (ctx (Serve ["GET"] foo_router c).2)) !! "Location"
    = Some "http:///foo?a=1" /\
  exists target,
    (Path c = target +:+ "/" \/ target = Path c +:+ "/") /\
    let uri := if (0 <? len (QueryString c))%nat
               then target +:+ "?" +:+ QueryArgsString c else target in
    let code := redirect_code (Method c) in
    Serve ["GET"] foo_router c =
      (Val tt, mkServe (ctx_Redirect uri code (SetUserValues [] c))
                       [EvRedirect TrailingSlash uri code]) /\
    Header (Resp (ctx (Serve ["GET"] foo_router c).2)) !! "Location"
      = Some (FullURI c uri) /\
    StatusCode (Resp (ctx (Serve ["GET"] foo_router c).2)) = code.
Proof.
  cbn zeta. split; [vm_compute; reflexivity|].
  refine (Serve_trailing_slash_redirect ["GET"] foo_router
            (request_with_query "GET" "/foo/" "a=1")
            [("/foo", ok_handler "foo")] [] eq_refl eq_refl _ _ eq_refl);
    intros Heq; discriminate Heq.
Defined.

(** [GET /FOO?a=1] where [/foo] is registered: redirect to [/foo?a=1]. *)
Lemma Serve_fixed_path_redirect_witness :
  let c := request_with_query "GET" "/FOO" "a=1" in
  let uri := if (0 <? len (QueryString c))%nat
             then "/foo" +:+ "?" +:+ QueryString c else "/foo" in
  let code := redirect_code (Method c) in
  uri = "/foo?a=1" /\ code = 301 /\
  Serve ["GET"] foo_router c =
    (Val tt, mkServe (ctx_Redirect uri code (SetUserValues [] c))
                     [EvRedirect FixedPath uri code]) /\
  Header (Resp (ctx (Serve ["GET"] foo_router c).2)) !! "Location" = Some (FullURI c uri).
Proof.
  cbn zeta. split; [reflexivity|]. split; [reflexivity|].
  refine (Serve_fixed_path_redirect ["GET"] foo_router
            (request_with_query "GET" "/FOO" "a=1")
            [("/foo", ok_handler "foo")] false [] "/foo"
            eq_refl eq_refl _ _ (or_introl eq_refl) eq_refl eq_refl);
    intros Heq; discriminate Heq.
Defined.

(** [POST /foo] where only GET has [/foo]: 405 with [Allow: GET, OPTIONS]. *)
Lemma Serve_method_not_allowed_witness :
  let c := request "POST" "/foo" in
  let allow := allowed ["GET"] foo_router (Path c) (Method c) in
  let c1 := set_Resp (HeaderSet "Allow" allow) (looked_up foo_router c) in
  allow = "GET, OPTIONS" /\
  StatusCode (Resp (ctx (Serve ["GET"] foo_router c).2)) = 405 /\
  Header (Resp c1) !! "Allow" = Some allow /\
  (MethodNotAllowed foo_router = None ->
     Serve ["GET"] foo_router c =
       (Val tt,
        mkServe (set_Resp (fun rs => mkResponse 405 (Header rs) defaultContentType
                                                "Method Not Allowed") c1)
                [EvMethodNotAllowed allow false])) /\
  (forall mna, MethodNotAllowed foo_router = Some mna ->
     serve ["GET"] foo_router (mkServe c []) =
       ((mna c1).1, mkServe (mna c1).2 [EvMethodNotAllowed allow true])).
Proof.
  cbn zeta. split; [vm_compute; reflexivity|]. split; [vm_compute; reflexivity|].
  refine (Serve_method_not_allowed ["GET"] foo_router (request "POST" "/foo")
            _ _ eq_refl _).
  - exact I.
  - intros Heq; discriminate Heq.
  - vm_compute. intros Heq; discriminate Heq.
Defined.

(** [OPTIONS /foo] where only GET has [/foo]: [Allow: GET, OPTIONS], and
    the status stays 200. *)
Lemma Serve_OPTIONS_reply_witness :
  let c := request "OPTIONS" "/foo" in
  let allow := allowed ["GET"] foo_router (Path c) "OPTIONS" in
  let out := Serve ["GET"] foo_router c in
  allow = "GET, OPTIONS" /\
  out = (Val tt, mkServe (set_Resp (HeaderSet "Allow" allow) (looked_up foo_router c))
                         [EvOptionsReply allow]) /\
  Header (Resp (ctx out.2)) !! "Allow" = Some allow /\
  StatusCode (Resp (ctx out.2)) = StatusCode (Resp c) /\
  Body (Resp (ctx out.2)) = Body (Resp c).
Proof.
  cbn zeta. split; [vm_compute; reflexivity|].
  refine (Serve_OPTIONS_reply ["GET"] foo_router (request "OPTIONS" "/foo")
            _ eq_refl eq_refl _).
  - exact I.
  - vm_compute. intros Heq; discriminate Heq.
Defined.

(** The redirect of [POST /bar] needs [RedirectTrailingSlash]. *)
Lemma Serve_action_needs_witness :
  let c := request "POST" "/bar" in
  let e := EvRedirect TrailingSlash "/bar/" 307 in
  In e (trace (Serve ["GET"; "POST"] foo_bar_router c).2) /\
  RedirectTrailingSlash foo_bar_router = true /\ Method c <> "CONNECT" /\ Path c <> "/".
Proof.
  cbn zeta.
  assert (Hin : In (EvRedirect TrailingSlash "/bar/" 307)
                   (trace (Serve ["GET"; "POST"] foo_bar_router (request "POST" "/bar")).2))
    by (vm_compute; left; reflexivity).
  split; [exact Hin|].
  exact (Serve_action_needs ["GET"; "POST"] foo_bar_router (request "POST" "/bar")
           (EvRedirect TrailingSlash "/bar/" 307) Hin).
Defined.







(** Under the server-wide path the two orders give two headers. *)
Example allowed_order_shows :
  allowed ["GET"; "POST"] foo_bar_router "*" "PUT" = "GET, POST, OPTIONS" /\
  allowed ["POST"; "GET"] foo_bar_router "*" "PUT" = "POST, GET, OPTIONS".
Proof. split; vm_compute; reflexivity. Qed.

(** [POST /x] on the router that has [GET /foo]. *)
Lemma Handle_touches_one_method_witness :
  let h' := heap_after (Handle 0 "POST" "/x" (ok_handler "x") [foo_router]) [foo_router] in
  exists rt',
    h' !! 0%nat = Some rt' /\
    same_but_method "POST" foo_router rt' /\
    (forall m p c, m <> "POST" -> Lookup rt' m p c = Lookup foo_router m p c).
Proof.
  exact (Handle_touches_one_method 0 "POST" "/x" (ok_handler "x") [foo_router]
           (Val tt)
           (heap_after (Handle 0 "POST" "/x" (ok_handler "x") [foo_router]) [foo_router])
           eq_refl 0%nat foo_router eq_refl).
Defined.

(** [GET /x] on the group [api]: the parent panics on [api/x], and the
    group has recorded it. *)
Lemma Handle_bad_group_prefix_witness :
  let g := default new_router (bad_prefix_heap !! 1%nat) in
  Handle 1 "GET" "/x" (ok_handler "x") bad_prefix_heap =
    Some (Panicked (PanicString "path must begin with '/' in path 'api/x'"),
          <[1%nat := record_path "GET" "api/x" g]> bad_prefix_heap) /\
  List (record_path "GET" "api/x" g) !! "GET" = Some ["api/x"].
Proof.
  cbn zeta. split; [|vm_compute; reflexivity].
  refine (Handle_bad_group_prefix 1
            (default new_router (bad_prefix_heap !! 1%nat)) 0 "GET" "/x"
            (ok_handler "x") bad_prefix_heap "a"%char eq_refl eq_refl _ eq_refl eq_refl _).
  - lia.
  - intros Heq; discriminate Heq.
Defined.

(** [ServeFiles("/static/*filepath", "/var/www")] on the inner group of
    [api_heap]: GET [/api/v1/static/*filepath] on the root, three
    segments stripped. *)
Lemma ServeFiles_registers_on_root_witness :
  let full := prefixed new_router (chain_path api_groups "/static/*filepath") in
  full = "/api/v1/static/*filepath" /\
  count_slash (files_prefix full) = 3%nat /\
  ServeFiles 2 "/static/*filepath" "/var/www" api_heap =
    Handle 0 "GET" full (FSHandler "/var/www" (count_slash (files_prefix full))) api_heap /\
  forall res h', ServeFiles 2 "/static/*filepath" "/var/www" api_heap = Some (res, h') ->
    forall i, i <> 0%nat -> h' !! i = api_heap !! i.
Proof.
  cbn zeta. split; [reflexivity|]. split; [reflexivity|].
  refine (ServeFiles_registers_on_root "/var/www" api_heap 2 api_groups 0 new_router
            "/static/*filepath" api_heap_wf _ eq_refl eq_refl).
  eapply chain_group; [reflexivity|reflexivity|].
  eapply chain_group; [reflexivity|reflexivity|].
  eapply chain_root; reflexivity.
Defined.

(** [ServeFiles("/static", ...)] *)
Lemma ServeFiles_rejects_path_witness :
  ServeFiles 0 "/static" "/var/www" [new_router] =
    Some (Panicked (PanicString "path must end with /*filepath in path '/static'"),
          [new_router]) /\
  ServeFilesCustom 0 "/static" (mkFS None tt) [new_router] =
    Some (Panicked (PanicString "path must end with /*filepath in path '/static'"),
          (mkFS None tt, [new_router])).
Proof.
  exact (ServeFiles_rejects_path 0 "/static" "/var/www" (mkFS None tt) [new_router] eq_refl).
Defined.

(** [ServeFilesCustom("/*filepath", fs)] on a new router: the prefix is
    empty, and no rewriter is installed. *)
Lemma ServeFilesCustom_path_rewrite_witness :
  let full := prefixed new_router (chain_path [] "/*filepath") in
  let n := count_slash (files_prefix full) in
  n = 0%nat /\
  exists fs',
    fs_fields fs' = fs_fields (mkFS None tt) /\
    (forall f, PathRewrite (mkFS None tt) = Some f -> PathRewrite fs' = Some f) /\
    (PathRewrite (mkFS None tt) = None ->
     PathRewrite fs' = if (0 <? n)%nat then Some (NewPathSlashesStripper n) else None) /\
    ServeFilesCustom 0 "/*filepath" (mkFS None tt) [new_router] =
      match Handle 0 "GET" full (NewRequestHandler (fs_fields fs') (PathRewrite fs'))
                   [new_router] with
      | Some (res, h') => Some (res, (fs', h'))
      | None => None
      end.
Proof.
  cbn zeta. split; [reflexivity|].
  refine (ServeFilesCustom_path_rewrite (mkFS None tt) [new_router] 0 [] 0 new_router
            "/*filepath" _ _ eq_refl eq_refl).
  - change (heap_wf (New []).2). apply heap_wf_New, heap_wf_nil.
  - eapply chain_root; reflexivity.
Defined.

(** [GET /metrics] through the middleware of [example/main.go]. *)
Lemma HandlerFunc_skips_metrics_path_witness :
  let s := fresh (request "GET" "/metrics") in
  let out := HandlerFunc ["GET"] example_setup.1 example_setup.2 5%nat s in
  out.1 = (Handler ["GET"] example_router (served s)).1 /\
  served out.2 = (Handler ["GET"] example_router (served s)).2 /\
  observed out.2 = observed s /\
  logged out.2 = logged s.
Proof.
  exact (HandlerFunc_skips_metrics_path ["GET"] example_setup.1 example_setup.2 0
           example_router 5%nat (fresh (request "GET" "/metrics")) eq_refl eq_refl eq_refl).
Defined.

(** [GET /health] through the middleware of [example/main.go]: one
    observation, under the last registered GET path. *)
Lemma HandlerFunc_observes_witness :
  let s := fresh (request "GET" "/health") in
  let out := HandlerFunc ["GET"] example_setup.1 example_setup.2 5%nat s in
  observed out.2 = [("200", "GET_/values/:id", 5%nat)] /\
  let run := Handler ["GET"] example_router (served s) in
  let c := ctx run.2 in
  let status := Itoa (StatusCode (Resp c)) in
  let uri := default (Path (ctx (served s)))
               (last (List.filter (fun v => matches example_router v (Method c))
                                  (default [] (List example_router !! Method c)))) in
  let ep := Method c +:+ "_" +:+ uri in
  (run.1 = Val tt -> label_error status ep = None ->
     out.1 = Val tt /\
     observed out.2 = (observed s ++ [(status, ep, 5%nat)])%list /\
     Resp (ctx (served out.2)) = Resp c /\
     trace (served out.2) = trace run.2) /\
  (run.1 = Val tt -> is_Some (label_error status ep) ->
     out.1 = Val tt /\ observed out.2 = observed s) /\
  (forall v, run.1 = Panicked v ->
     out.1 = Panicked v /\ observed out.2 = observed s /\ logged out.2 = logged s).
Proof.
  cbn zeta. split; [vm_compute; reflexivity|].
  refine (HandlerFunc_observes ["GET"] example_setup.1 example_setup.2 0
            example_router 5%nat (fresh (request "GET" "/health")) eq_refl eq_refl _).
  intros Heq; discriminate Heq.
Defined.
